(** * Support-ticket triage pipeline: a shallow embedding and its properties

    The development follows the Python sources [app/utils.py],
    [app/schema.py], [app/graph.py] and [app/main.py].

    Text is modelled as Rocq [string]s read as ASCII text: case
    conversion acts on the letters a-z, white space is what Python's
    [str.isspace] accepts below code point 128, and a decimal digit is
    one of 0-9.  Dictionaries loaded from the JSON files are finite maps
    from field names to string values. *)

From Stdlib Require Import String Ascii List Bool Arith Lia.
From stdpp Require Import base option list gmap strings.

Local Open Scope string_scope.
Local Open Scope list_scope.

(** ** Python string primitives *)

Module Py.

(** [bool(s)] for a [str]: the empty string is falsy. *)
Definition truthy_str (s : string) : bool :=
  match s with
  | EmptyString => false
  | String _ _ => true
  end.

(** [bool(x)] for an [Optional[str]]: [None] and [""] are falsy. *)
Definition truthy (x : option string) : bool :=
  match x with
  | None => false
  | Some s => truthy_str s
  end.

(** [str(x)] for an [Optional[str]]. *)
Definition str (x : option string) : string :=
  match x with
  | None => "None"
  | Some s => s
  end.

Definition is_lower (c : ascii) : bool :=
  let n := nat_of_ascii c in ((97 <=? n) && (n <=? 122))%nat.

Definition is_digit (c : ascii) : bool :=
  let n := nat_of_ascii c in ((48 <=? n) && (n <=? 57))%nat.

(** [c.isspace()]: tab, line feed, vertical tab, form feed, carriage
    return, the four separators 0x1c-0x1f and the space. *)
Definition is_space (c : ascii) : bool :=
  let n := nat_of_ascii c in
  (((9 <=? n) && (n <=? 13)) || ((28 <=? n) && (n <=? 31)) || (n =? 32))%nat.

Definition upper_char (c : ascii) : ascii :=
  if is_lower c then ascii_of_nat (nat_of_ascii c - 32) else c.

(** [s.upper()] *)
Fixpoint upper (s : string) : string :=
  match s with
  | EmptyString => EmptyString
  | String c s' => String (upper_char c) (upper s')
  end.

Definition is_upper (c : ascii) : bool :=
  let n := nat_of_ascii c in ((65 <=? n) && (n <=? 90))%nat.

Definition lower_char (c : ascii) : ascii :=
  if is_upper c then ascii_of_nat (nat_of_ascii c + 32) else c.

(** [s.lower()] *)
Fixpoint lower (s : string) : string :=
  match s with
  | EmptyString => EmptyString
  | String c s' => String (lower_char c) (lower s')
  end.

(** [s.replace(old, "")] for a one-character [old]: every occurrence of
    the character is dropped. *)
Fixpoint replace_drop (old : ascii) (s : string) : string :=
  match s with
  | EmptyString => EmptyString
  | String c s' =>
      if Ascii.eqb c old then replace_drop old s'
      else String c (replace_drop old s')
  end.

(** [s.lstrip()] *)
Fixpoint lstrip (s : string) : string :=
  match s with
  | EmptyString => EmptyString
  | String c s' => if is_space c then lstrip s' else s
  end.

(** [s.rstrip()] *)
Fixpoint rstrip (s : string) : string :=
  match s with
  | EmptyString => EmptyString
  | String c s' =>
      match rstrip s' with
      | EmptyString => if is_space c then EmptyString else String c EmptyString
      | r => String c r
      end
  end.

(** [s.strip()] *)
Definition strip (s : string) : string := rstrip (lstrip s).

(** [s.startswith(p)] *)
Fixpoint startswith (p s : string) : bool :=
  match p, s with
  | EmptyString, _ => true
  | String a p', String b s' => Ascii.eqb a b && startswith p' s'
  | String _ _, EmptyString => false
  end.

(** [sub in s] for two strings: [sub] occurs somewhere in [s]. *)
Fixpoint contains (sub s : string) : bool :=
  startswith sub s ||
  match s with
  | EmptyString => false
  | String _ s' => contains sub s'
  end.

End Py.

(** ** The pattern [(ORD[-\s]?\d+)] searched with [re.IGNORECASE]

    The classes [\s] and [\d] are taken on ASCII text: on text with
    other characters (a no-break space, a digit of another script)
    Python's classes are wider than the ones here. *)

Module Re.

(** The longest run of decimal digits at the head of [s], and what
    follows it: the greedy [\d+] (empty run: no match). *)
Fixpoint digits (s : string) : string * string :=
  match s with
  | EmptyString => (EmptyString, EmptyString)
  | String c s' =>
      if Py.is_digit c then
        let (d, rest) := digits s' in (String c d, rest)
      else (EmptyString, s)
  end.

(** [[-\s]] *)
Definition is_sep (c : ascii) : bool :=
  Ascii.eqb c "-"%char || Py.is_space c.

(** The pattern anchored at the head of [s]; the result is group 1.
    The optional separator is tried first (the quantifier is greedy) and
    given back when no digit follows it. *)
Definition match_here (s : string) : option string :=
  match s with
  | String o (String r (String d rest)) =>
      if Ascii.eqb (Py.upper_char o) "O"%char
         && Ascii.eqb (Py.upper_char r) "R"%char
         && Ascii.eqb (Py.upper_char d) "D"%char
      then
        let with_sep :=
          match rest with
          | String c rest' =>
              if is_sep c then
                match digits rest' with
                | (String d0 ds, _) =>
                    Some (String o (String r (String d (String c (String d0 ds)))))
                | (EmptyString, _) => None
                end
              else None
          | EmptyString => None
          end in
        match with_sep with
        | Some m => Some m
        | None =>
            match digits rest with
            | (String d0 ds, _) =>
                Some (String o (String r (String d (String d0 ds))))
            | (EmptyString, _) => None
            end
        end
      else None
  | _ => None
  end.

(** [re.search]: the leftmost position at which the pattern matches. *)
Fixpoint search (text : string) : option string :=
  match match_here text with
  | Some m => Some m
  | None =>
      match text with
      | EmptyString => None
      | String _ text' => search text'
      end
  end.

End Re.

(** ** Exceptions *)

Inductive Exn : Type :=
| KeyError (key : string)
| ValidationError (raw : string)
| OutputParserException
| CapabilityError (detail : string)
| GraphRecursionError.

Inductive result (A : Type) : Type :=
| Ok (a : A)
| Raise (e : Exn).

Arguments Ok {A} a.
Arguments Raise {A} e.

(** Exceptions propagate: [x ← r; k] runs [k] when [r] returned. *)
#[global] Instance result_ret : MRet result := fun A a => Ok a.

#[global] Instance result_bind : MBind result := fun A B k r =>
  match r with
  | Ok a => k a
  | Raise e => Raise e
  end.

(** A JSON object of the data files: field name to string value. *)
Abbreviation Dict := (gmap string string).

(** ** [app/utils.py] *)

Module utils.

Section Files.

(** The [mock_data] directory: what [json.load] reads from a file of
    that name, [None] when the file does not exist. *)
Variable mock_data : string -> option (list Dict).

Definition load_json (filename : string) : list Dict :=
  match mock_data filename with
  | Some rows => rows
  | None => []
  end.

(** [str(x).replace('-', '').replace(' ', '').upper()] *)
Definition clean (x : string) : string :=
  Py.upper (Py.replace_drop " " (Py.replace_drop "-" x)).

Definition lookup_order (order_id : option string) : option Dict :=
  if negb (Py.truthy order_id) then None
  else
    let db := load_json "orders.json" in
    let clean_id := clean (Py.str order_id) in
    List.find
      (fun order =>
         let db_id := clean (default "" (order !! "order_id")) in
         String.eqb db_id clean_id)
      db.

Definition default_template : string :=
  "Hi {{customer_name}}, regarding order {{order_id}}: We are looking into your issue.".

Fixpoint first_template (replies : list Dict) (issue_type : option string)
  : result string :=
  match replies with
  | [] => Ok default_template
  | item :: rest =>
      if bool_decide (item !! "issue_type" = issue_type) then
        match item !! "template" with
        | Some t => Ok t
        | None => Raise (KeyError "template")
        end
      else first_template rest issue_type
  end.

Definition get_reply_template (issue_type : option string) : result string :=
  first_template (load_json "replies.json") issue_type.

Fixpoint issue_column (issue_mappings : list Dict) : result (list string) :=
  match issue_mappings with
  | [] => Ok []
  | item :: rest =>
      match item !! "issue_type" with
      | Some i => tl ← issue_column rest; Ok (i :: tl)
      | None => Raise (KeyError "issue_type")
      end
  end.

Definition get_issue_types : result (list string) :=
  col ← issue_column (load_json "issues.json"); Ok (col ++ ["other"]).

End Files.

End utils.

(** ** [app/schema.py] *)

Module schema.

Inductive Message : Type :=
| SystemMessage (content : string)
| HumanMessage (content : string)
| AIMessage (content : string)
| ToolMessage (content : string) (name : string) (tool_call_id : string).

Definition content_of (m : Message) : string :=
  match m with
  | SystemMessage c | HumanMessage c | AIMessage c | ToolMessage c _ _ => c
  end.

Definition is_human (m : Message) : bool :=
  match m with
  | HumanMessage _ => true
  | _ => false
  end.

(** The state channels.  A key that is missing and a key bound to [None]
    read the same through [state.get], so both are [None] here;
    [messages] carries the [add_messages] reducer and starts empty. *)
Record AgentState : Type := {
  messages : list Message;
  ticket_text : option string;
  issue_type : option string;
  order_id : option string;
  evidence : option string
}.

Definition empty_state : AgentState :=
  {| messages := []; ticket_text := None; issue_type := None;
     order_id := None; evidence := None |}.

(** What a node returns, and what a caller passes as input: the keys
    that are present.  [upd_messages] is the list handed to
    [add_messages] (a missing key adds nothing). *)
Record Update : Type := {
  upd_messages : list Message;
  upd_ticket_text : option (option string);
  upd_issue_type : option (option string);
  upd_order_id : option (option string)
}.

Definition no_update : Update :=
  {| upd_messages := []; upd_ticket_text := None; upd_issue_type := None;
     upd_order_id := None |}.

(** Channel writes: [messages] appends, the other keys keep the last
    value written. *)
Definition apply_update (s : AgentState) (u : Update) : AgentState :=
  {| messages := messages s ++ upd_messages u;
     ticket_text := default (ticket_text s) (upd_ticket_text u);
     issue_type := default (issue_type s) (upd_issue_type u);
     order_id := default (order_id s) (upd_order_id u);
     evidence := evidence s |}.

(** The structured answer [ClassificationOutput]; [issue_type] holds the
    value of the [IssueType] member. *)
Record ClassificationOutput : Type := {
  co_issue_type : string;
  co_order_id : option string
}.

End schema.

(** ** [app/graph.py] *)

Module graph.

Import schema.

(** What the model sends back when asked for a [ClassificationOutput]:
    a structured answer, text that is no such answer, or a failed call. *)
Inductive LLMReply : Type :=
| Structured (issue_type : string) (order_id : option string)
| Unparseable
| Failed (detail : string).

(** The five placeholder tokens of [classify_node]. *)
Definition placeholders : list string :=
  ["N/A"; "NONE"; "NULL"; "NOT PROVIDED"; "UNKNOWN"].

(** Lines 60-64: the candidate the classifier reported, dropped when its
    trimmed upper-case form has a placeholder in it. *)
Definition screen_candidate (oid : option string) : option string :=
  if Py.truthy oid then
    let clean_oid := Py.upper (Py.strip (Py.str oid)) in
    if existsb (fun x => Py.contains x clean_oid) placeholders then None
    else oid
  else oid.

(** [match.group(1).upper().replace(" ", "").replace("-", "")] *)
Definition canonical (m : string) : string :=
  Py.replace_drop "-" (Py.replace_drop " " (Py.upper m)).

(** Lines 66-69: the id found in the text, when nothing is held yet. *)
Definition from_text (oid text_to_analyze : option string) : option string :=
  if negb (Py.truthy oid) && Py.truthy text_to_analyze then
    match Re.search (Py.str text_to_analyze) with
    | Some m => Some (canonical m)
    | None => oid
    end
  else oid.

(** Lines 71-72: the id already in the state, when nothing is held yet. *)
Definition from_state (oid state_order_id : option string) : option string :=
  if negb (Py.truthy oid) then state_order_id else oid.

(** Lines 60-72 of [classify_node]: the order id of the turn. *)
Definition resolve_order_id
  (response_order_id text_to_analyze state_order_id : option string)
  : option string :=
  let oid := screen_candidate response_order_id in
  let oid := from_text oid text_to_analyze in
  from_state oid state_order_id.

(** Lines 30-35: the ticket text, or the latest human message. *)
Definition text_to_analyze (state : AgentState) : option string :=
  let text := ticket_text state in
  if negb (Py.truthy text) then
    match List.find is_human (rev (messages state)) with
    | Some msg => Some (content_of msg)
    | None => text
    end
  else text.

(** The system prompt of [classify_node]; the line breaks and the
    indentation of the Python literal are written as single spaces. *)
Definition system_prompt : string :=
  "You are an expert Customer Support Triage Agent. Your job is to classify the user's issue into exactly one of these categories: CLASSIFICATION RULES: - 'defective_product': The item arrived but is NOT WORKING, won't turn on, is glitchy, or has a bad battery. - 'damaged_item': The item arrived physically BROKEN, smashed, scratched, or crushed. - 'missing_item': The order arrived but a specific item was NOT in the box. - 'late_delivery': The order has not arrived yet, or the user is asking for shipping status. - 'wrong_item': The user received a product they did not order. - 'refund_request': The user explicitly asks for their money back. - 'duplicate_charge': The user sees two charges for the same order. Extract the Order ID if present (e.g., ORD-123).".

(** The two prompts of [draft_reply_node], by the values formatted into
    them. *)
Inductive DraftPrompt : Type :=
| AskForOrderId (issue_type : option string) (user_input today : string)
| UseTemplate (issue_type : option string) (order_id template today : string).

Section Nodes.

Variable mock_data : string -> option (list Dict).

(** The values of the [IssueType] enumeration ([get_issue_types()] at
    import time). *)
Variable raw_issues : list string.

(** [model] asked for structured output, and asked for text. *)
Variable structured_llm : list Message -> LLMReply.
Variable chat_llm : list Message -> result Message.

(** [json.dumps], the text of a [DraftPrompt] and the current UTC date. *)
Variable json_dumps : Dict -> string.
Variable render : DraftPrompt -> string.
Variable today : string.

(** [model.with_structured_output(ClassificationOutput).invoke]: the
    answer is validated against the schema, whose [issue_type] field
    accepts the values of the enumeration only.  An answer that does not
    validate leaves no [ClassificationOutput] to read: the call raises
    (or hands back nothing, and reading [response.issue_type] raises). *)
Definition structured_invoke (msgs : list Message)
  : result ClassificationOutput :=
  match structured_llm msgs with
  | Structured i o =>
      if existsb (String.eqb i) raw_issues
      then Ok {| co_issue_type := i; co_order_id := o |}
      else Raise (ValidationError i)
  | Unparseable => Raise OutputParserException
  | Failed detail => Raise (CapabilityError detail)
  end.

Definition fetch_order_tool (order_id : string) : string :=
  match utils.lookup_order mock_data (Some order_id) with
  | Some order =>
      if bool_decide (order = ∅)
      then "Order ID " +:+ order_id +:+ " not found in the database."
      else json_dumps order
  | None => "Order ID " +:+ order_id +:+ " not found in the database."
  end.

Definition classify_node (state : AgentState) : result Update :=
  let text := text_to_analyze state in
  let msgs := SystemMessage system_prompt :: messages state in
  response ← structured_invoke msgs;
  let issue_type_str := co_issue_type response in
  let oid := resolve_order_id (co_order_id response) text (order_id state) in
  Ok {| upd_messages := [];
        upd_ticket_text := None;
        upd_issue_type := Some (Some issue_type_str);
        upd_order_id := Some oid |}.

Definition fetch_order_node (state : AgentState) : result Update :=
  let oid := order_id state in
  let tool_result := fetch_order_tool (Py.str oid) in
  Ok {| upd_messages :=
          [ToolMessage tool_result "fetch_order" ("call_" +:+ Py.str oid)];
        upd_ticket_text := None;
        upd_issue_type := None;
        upd_order_id := None |}.

Definition draft_reply_node (state : AgentState) : result Update :=
  let issue := issue_type state in
  let oid := order_id state in
  let user_input :=
    match List.find is_human (rev (messages state)) with
    | Some msg => content_of msg
    | None => "Unknown"
    end in
  prompt ←
    (if negb (Py.truthy oid) then Ok (AskForOrderId issue user_input today)
     else
       template ← utils.get_reply_template mock_data issue;
       Ok (UseTemplate issue (Py.str oid) template today));
  let msgs := SystemMessage (render prompt) :: messages state in
  response ← chat_llm msgs;
  Ok {| upd_messages := [response];
        upd_ticket_text := None;
        upd_issue_type := None;
        upd_order_id := None |}.

End Nodes.

(** *** Routing *)

Definition route_ticket (state : AgentState) : string :=
  if Py.truthy (order_id state) then "fetch_order" else "draft_reply".

(** *** Graph construction *)

Definition START : string := "__start__".
Definition END : string := "__end__".

Record StateGraph : Type := {
  nodes : list (string * (AgentState -> result Update));
  edges : list (string * string);
  branches : list (string * ((AgentState -> string) * list (string * string)))
}.

Fixpoint assoc {V : Type} (k : string) (l : list (string * V)) : option V :=
  match l with
  | [] => None
  | (k', v) :: rest => if String.eqb k k' then Some v else assoc k rest
  end.

(** Where control goes after node [n] left the state [s]: through the
    conditional edge of [n] when it has one, else along its plain edge. *)
Definition successor (g : StateGraph) (n : string) (s : AgentState)
  : option string :=
  match assoc n (branches g) with
  | Some (path, path_map) => assoc (path s) path_map
  | None => assoc n (edges g)
  end.

(** One run of the graph from node [n]: the nodes entered, in order, the
    state reached and how the run ended.  A unit of the limit is spent
    per node entered; the engine's own count also covers the start of
    the run, which matters for limits of three or less only. *)
Record Run : Type := {
  trace : list string;
  final_state : AgentState;
  outcome : result unit
}.

Fixpoint run_from (g : StateGraph) (limit : nat) (n : string)
  (s : AgentState) (seen : list string) : Run :=
  if String.eqb n END then
    {| trace := seen; final_state := s; outcome := Ok tt |}
  else
    match limit with
    | O => {| trace := seen; final_state := s;
              outcome := Raise GraphRecursionError |}
    | S limit' =>
        match assoc n (nodes g) with
        | None => {| trace := seen; final_state := s;
                     outcome := Raise (KeyError n) |}
        | Some node =>
            match node s with
            | Raise e => {| trace := seen ++ [n]; final_state := s;
                            outcome := Raise e |}
            | Ok u =>
                let s' := apply_update s u in
                match successor g n s' with
                | Some n' => run_from g limit' n' s' (seen ++ [n])
                | None => {| trace := seen ++ [n]; final_state := s';
                             outcome := Ok tt |}
                end
            end
        end
    end.

(** The rest of a run once node [n] has left the state [s]. *)
Definition resume (g : StateGraph) (limit : nat) (n : string)
  (s : AgentState) (seen : list string) : Run :=
  match successor g n s with
  | Some n' => run_from g limit n' s (seen ++ [n])
  | None => {| trace := seen ++ [n]; final_state := s; outcome := Ok tt |}
  end.

(** The default bound on the number of steps of one run. *)
Definition recursion_limit : nat := 25.

(** [builder.compile(checkpointer=...)]: the graph, and whether a
    checkpointer was handed to it. *)
Record CompiledGraph : Type := {
  state_graph : StateGraph;
  checkpointer : bool
}.

(** [graph.invoke(inputs, config)] with [thread_id] in the config.
    [saver] is the checkpoint store.  Without a checkpointer a run starts
    from the inputs alone and the store is neither read nor written; with
    one, the run starts from the checkpoint of the thread and the state
    reached is written back. *)
Definition invoke (cg : CompiledGraph) (saver : gmap string AgentState)
  (inputs : Update) (thread_id : string) : Run * gmap string AgentState :=
  let before :=
    if checkpointer cg then default empty_state (saver !! thread_id)
    else empty_state in
  let s0 := apply_update before inputs in
  let r :=
    match successor (state_graph cg) START s0 with
    | Some n => run_from (state_graph cg) recursion_limit n s0 []
    | None => {| trace := []; final_state := s0; outcome := Ok tt |}
    end in
  (r, if checkpointer cg then <[thread_id := final_state r]> saver else saver).

Section Graph.

Variable mock_data : string -> option (list Dict).
Variable raw_issues : list string.
Variable structured_llm : list Message -> LLMReply.
Variable chat_llm : list Message -> result Message.
Variable json_dumps : Dict -> string.
Variable render : DraftPrompt -> string.
Variable today : string.

Definition builder : StateGraph :=
  {| nodes :=
       [("classify", classify_node raw_issues structured_llm);
        ("fetch_order", fetch_order_node mock_data json_dumps);
        ("draft_reply", draft_reply_node mock_data chat_llm render today)];
     edges :=
       [(START, "classify");
        ("fetch_order", "draft_reply");
        ("draft_reply", END)];
     branches :=
       [("classify",
         (route_ticket,
          [("fetch_order", "fetch_order"); ("draft_reply", "draft_reply")]))]
  |}.

(** [graph = builder.compile()]: the checkpointer argument is commented
    out in the source. *)
Definition graph : CompiledGraph :=
  {| state_graph := builder; checkpointer := false |}.

(** The same builder compiled with [checkpointer=memory], the line the
    source leaves commented out. *)
Definition graph_with_memory : CompiledGraph :=
  {| state_graph := builder; checkpointer := true |}.

End Graph.

End graph.

(** ** [app/main.py] *)

Module main.

Import schema.

Record TriageInput : Type := {
  ticket_text : string;
  order_id : option string;
  conversation_id : option string
}.

Record TriageOutput : Type := {
  out_order_id : option string;
  out_issue_type : string;
  out_order : option Dict;
  out_reply_text : string
}.

Inductive HttpResponse : Type :=
| Http200 (body : TriageOutput)
| Http500 (detail : string).

(** [str(e)], as far as the model goes: a short text that names the
    exception.  The wording Python gives after "Agent Error: " is the
    library's own and is not reproduced. *)
Definition exn_text (e : Exn) : string :=
  match e with
  | KeyError k => k
  | ValidationError raw => raw
  | OutputParserException => "OutputParserException"
  | CapabilityError detail => detail
  | GraphRecursionError => "GraphRecursionError"
  end.

(** Step 1 of [triage_invoke]: the thread id.  [uuid4] is the fresh
    identifier drawn when nothing else names the thread. *)
Definition thread_id_of (body : TriageInput) (uuid4 : string) : string :=
  let thread_id := conversation_id body in
  let thread_id :=
    if negb (Py.truthy thread_id) && Py.truthy (order_id body)
    then order_id body else thread_id in
  let thread_id :=
    if negb (Py.truthy thread_id) then
      match Re.search (ticket_text body) with
      | Some m => Some (graph.canonical m)
      | None => thread_id
      end
    else thread_id in
  if negb (Py.truthy thread_id) then uuid4 else Py.str thread_id.

(** Step 2: the graph input. *)
Definition inputs_of (body : TriageInput) : Update :=
  {| upd_messages := [HumanMessage (ticket_text body)];
     upd_ticket_text := Some (Some (ticket_text body));
     upd_issue_type := None;
     upd_order_id :=
       if Py.truthy (order_id body) then Some (order_id body) else None |}.

(** [next((o for o in ORDERS if o["order_id"] == agent_oid), None)] *)
Fixpoint hydrate (orders : list Dict) (agent_oid : string)
  : result (option Dict) :=
  match orders with
  | [] => Ok None
  | o :: rest =>
      match o !! "order_id" with
      | None => Raise (KeyError "order_id")
      | Some i => if String.eqb i agent_oid then Ok (Some o)
                  else hydrate rest agent_oid
      end
  end.

(** [o[key]]: a missing key raises. *)
Definition getitem (o : Dict) (key : string) : result string :=
  match o !! key with
  | Some v => Ok v
  | None => Raise (KeyError key)
  end.

(** What [GET /orders/get] answers: the record, or the 404 the handler
    raises itself, or an exception no handler caught. *)
Inductive OrdersGetResponse : Type :=
| OrderFound (o : Dict)
| Http404 (detail : string)
| Unhandled (e : Exn).

Fixpoint orders_get (ORDERS : list Dict) (order_id : string)
  : OrdersGetResponse :=
  match ORDERS with
  | [] => Http404 "Order not found"
  | o :: rest =>
      match getitem o "order_id" with
      | Raise e => Unhandled e
      | Ok i => if String.eqb i order_id then OrderFound o
                else orders_get rest order_id
      end
  end.

(** The test of the loop body of [orders_search]: the [if] on the email,
    then the [elif] on the free text, with [and]/[or] evaluated as far
    as Python evaluates them. *)
Definition search_hit (customer_email q : option string) (o : Dict)
  : result bool :=
  by_email ←
    (if Py.truthy customer_email then
       e ← getitem o "email";
       Ok (String.eqb (Py.lower e) (Py.lower (Py.str customer_email)))
     else Ok false);
  if by_email : bool then Ok true
  else if Py.truthy q then
    i ← getitem o "order_id";
    if Py.contains (Py.lower i) (Py.lower (Py.str q)) then Ok true
    else
      n ← getitem o "customer_name";
      Ok (Py.contains (Py.lower n) (Py.lower (Py.str q)))
  else Ok false.

(** [GET /orders/search]: the list under ["results"]. *)
Fixpoint orders_search (ORDERS : list Dict) (customer_email q : option string)
  : result (list Dict) :=
  match ORDERS with
  | [] => Ok []
  | o :: rest =>
      hit ← search_hit customer_email q o;
      matches ← orders_search rest customer_email q;
      Ok (if hit : bool then o :: matches else matches)
  end.

Section Endpoint.

Variable mock_data : string -> option (list Dict).
Variable raw_issues : list string.
Variable structured_llm : list Message -> graph.LLMReply.
Variable chat_llm : list Message -> result Message.
Variable json_dumps : Dict -> string.
Variable render : graph.DraftPrompt -> string.
Variable today : string.

(** [ORDERS = load("orders.json")], read once when the module loads. *)
Variable ORDERS : list Dict.

(** One call of [POST /triage/invoke].  [saver] is the checkpoint store
    the graph would use, [uuid4] the identifier [uuid.uuid4()] returns. *)
Definition triage_invoke (saver : gmap string AgentState) (uuid4 : string)
  (body : TriageInput) : HttpResponse * gmap string AgentState :=
  let thread_id := thread_id_of body uuid4 in
  let inputs := inputs_of body in
  let '(r, saver') :=
    graph.invoke
      (graph.graph mock_data raw_issues structured_llm chat_llm json_dumps
         render today)
      saver inputs thread_id in
  match graph.outcome r with
  | Raise e => (Http500 ("Agent Error: " +:+ exn_text e), saver')
  | Ok _ =>
      let final_state := graph.final_state r in
      let agent_issue := default "other" (issue_type final_state) in
      let agent_oid := schema.order_id final_state in
      match
        last (messages final_state),
        (if Py.truthy agent_oid then hydrate ORDERS (Py.str agent_oid)
         else Ok None)
      with
      | Some last_msg, Ok full_order =>
          (Http200 {| out_order_id := agent_oid;
                      out_issue_type := agent_issue;
                      out_order := full_order;
                      out_reply_text := content_of last_msg |}, saver')
      | _, _ => (Http500 "Internal Server Error", saver')
      end
  end.

(** The order id a call reports, when it answers at all. *)
Definition resolved_order_id (resp : HttpResponse) : option (option string) :=
  match resp with
  | Http200 body => Some (out_order_id body)
  | Http500 _ => None
  end.

End Endpoint.

End main.

(** ** [app/server.py] *)

Module server.

Import schema.

Record TriageInput : Type := {
  ticket_text : string;
  order_id : option string
}.

Record TriageOutput : Type := {
  out_order_id : option string;
  out_issue_type : option string;
  out_order : option Dict;
  out_reply_text : string
}.

(** The handler catches nothing: an exception leaves it unhandled. *)
Inductive Response : Type :=
| Answered (body : TriageOutput)
| Unhandled (e : Exn).

(** Step 1: the graph input; no [messages] key. *)
Definition inputs_of (body : TriageInput) : Update :=
  {| upd_messages := [];
     upd_ticket_text := Some (Some (ticket_text body));
     upd_issue_type := None;
     upd_order_id :=
       if Py.truthy (order_id body) then Some (order_id body) else None |}.

(** [next((o for o in ORDERS if o["order_id"] == agent_oid), None)],
    with [agent_oid] possibly [None]. *)
Fixpoint hydrate (orders : list Dict) (agent_oid : option string)
  : result (option Dict) :=
  match orders with
  | [] => Ok None
  | o :: rest =>
      i ← main.getitem o "order_id";
      if bool_decide (Some i = agent_oid) then Ok (Some o)
      else hydrate rest agent_oid
  end.

Section Endpoint.

Variable mock_data : string -> option (list Dict).
Variable raw_issues : list string.
Variable structured_llm : list Message -> graph.LLMReply.
Variable chat_llm : list Message -> result Message.
Variable json_dumps : Dict -> string.
Variable render : graph.DraftPrompt -> string.
Variable today : string.
Variable ORDERS : list Dict.

(** One call of [POST /triage/invoke] as [server.py] serves it.  Taking
    the last element of an empty transcript raises; that exception is
    filed under [KeyError] here. *)
Definition triage_invoke_manual (saver : gmap string AgentState)
  (body : TriageInput) : Response * gmap string AgentState :=
  let inputs := inputs_of body in
  let '(r, saver') :=
    graph.invoke
      (graph.graph mock_data raw_issues structured_llm chat_llm json_dumps
         render today)
      saver inputs "assessment_mode" in
  match graph.outcome r with
  | Raise e => (Unhandled e, saver')
  | Ok _ =>
      let final_state := graph.final_state r in
      let agent_issue := issue_type final_state in
      let agent_oid := schema.order_id final_state in
      match last (messages final_state) with
      | None => (Unhandled (KeyError "-1"), saver')
      | Some last_msg =>
          match hydrate ORDERS agent_oid with
          | Raise e => (Unhandled e, saver')
          | Ok full_order_obj =>
              (Answered {| out_order_id := agent_oid;
                           out_issue_type := agent_issue;
                           out_order := full_order_obj;
                           out_reply_text := content_of last_msg |}, saver')
          end
      end
  end.

End Endpoint.

End server.

(** ** Vocabulary of the statements *)

Module spec.

Import schema.

(** [sub] occurs in [s]. *)
Definition Occurs (sub s : string) : Prop :=
  exists pre post : string, s = pre +:+ sub +:+ post.

(** The candidate is treated as no id: nothing truthy is left of it
    after lines 60-64. *)
Definition discarded (c : string) : bool :=
  negb (Py.truthy (graph.screen_candidate (Some c))).

(** The placeholder test in the words of the specification: the trimmed,
    upper-cased candidate is one of the five tokens. *)
Definition is_placeholder_token (c : string) : bool :=
  existsb (String.eqb (Py.upper (Py.strip c))) graph.placeholders.

(** The id extracted from a text, if the text has one. *)
Definition text_id (text : option string) : option string :=
  match text with
  | Some t => option_map graph.canonical (Re.search t)
  | None => None
  end.

(** The classifier reported no id, or one that is discarded. *)
Definition absent_or_rejected (candidate : option string) : Prop :=
  match candidate with
  | Some c => discarded c = true
  | None => True
  end.

(** The candidate passes the screen of lines 60-64: it is not empty and
    its trimmed, upper-cased form has none of the five tokens in it. *)
Definition passes_screen (c : string) : Prop :=
  c <> ""
  /\ forall x, In x graph.placeholders ->
               ~ Occurs x (Py.upper (Py.strip c)).

(** No candidate is reported, or the one reported does not pass the
    screen: it is empty, or has one of the five tokens in it. *)
Definition fails_screen (candidate : option string) : Prop :=
  match candidate with
  | Some c =>
      c = ""
      \/ exists x, In x graph.placeholders
                   /\ Occurs x (Py.upper (Py.strip c))
  | None => True
  end.

(** The precedence of the resolver in the words of the specification:
    the first source that yields an id wins. *)
Definition first_match_wins (candidate text persisted : option string)
  : option string :=
  match candidate with
  | Some c =>
      if discarded c then
        match text_id text with Some m => Some m | None => persisted end
      else Some c
  | None =>
      match text_id text with Some m => Some m | None => persisted end
  end.

(** The classifier's answer decodes into a [ClassificationOutput]. *)
Definition decodes (raw_issues : list string) (reply : graph.LLMReply)
  : bool :=
  match reply with
  | graph.Structured i _ => existsb (String.eqb i) raw_issues
  | _ => false
  end.

(** The transcript entry the lookup node adds for the state [s]. *)
Definition tool_entry (mock_data : string -> option (list Dict))
  (json_dumps : Dict -> string) (s : AgentState) : Message :=
  ToolMessage
    (graph.fetch_order_tool mock_data json_dumps (Py.str (order_id s)))
    "fetch_order" ("call_" +:+ Py.str (order_id s)).

(** The state the drafting node sees after the lookup node ran on [s]. *)
Definition after_fetch (mock_data : string -> option (list Dict))
  (json_dumps : Dict -> string) (s : AgentState) : AgentState :=
  {| messages := messages s ++ [tool_entry mock_data json_dumps s];
     ticket_text := ticket_text s;
     issue_type := issue_type s;
     order_id := order_id s;
     evidence := evidence s |}.

(** The state at which drafting starts, from the state classification
    left. *)
Definition at_draft (mock_data : string -> option (list Dict))
  (json_dumps : Dict -> string) (s : AgentState) : AgentState :=
  if Py.truthy (order_id s) then after_fetch mock_data json_dumps s else s.

(** The nodes a turn enters, from the state classification left. *)
Definition route_of (s : AgentState) : list string :=
  if Py.truthy (order_id s) then ["classify"; "fetch_order"; "draft_reply"]
  else ["classify"; "draft_reply"].

(** The text is ASCII: every character has a code below 128.  On such
    text the classes [\s] and [\d] and the case folding of Python's
    [re] are the ones of [Re]. *)
Fixpoint ascii_text (s : string) : bool :=
  match s with
  | EmptyString => true
  | String c s' => (nat_of_ascii c <? 128)%nat && ascii_text s'
  end.

(** Every character of [s] is a decimal digit. *)
Fixpoint all_digits (s : string) : bool :=
  match s with
  | EmptyString => true
  | String c s' => Py.is_digit c && all_digits s'
  end.

Definition starts_with_digit (s : string) : bool :=
  match s with
  | String c _ => Py.is_digit c
  | EmptyString => false
  end.

(** The letters O, R, D in either case. *)
Definition is_ord (o r d : ascii) : bool :=
  Ascii.eqb (Py.upper_char o) "O"
  && Ascii.eqb (Py.upper_char r) "R"
  && Ascii.eqb (Py.upper_char d) "D".

(** The strings the pattern [ORD[-\s]?\d+] describes, case ignored. *)
Inductive PatternMatch : string -> Prop :=
| pm_plain (o r d : ascii) (ds : string) :
    is_ord o r d = true -> ds <> "" -> all_digits ds = true ->
    PatternMatch (String o (String r (String d ds)))
| pm_sep (o r d c : ascii) (ds : string) :
    is_ord o r d = true -> Re.is_sep c = true ->
    ds <> "" -> all_digits ds = true ->
    PatternMatch (String o (String r (String d (String c ds)))).

(** The record has the three fields [orders_search] reads. *)
Definition searchable (o : Dict) : Prop :=
  is_Some (o !! "email") /\ is_Some (o !! "order_id")
  /\ is_Some (o !! "customer_name").

(** The test of [orders_search] on a record that has the three fields. *)
Definition hits (customer_email q : option string) (o : Dict) : bool :=
  (Py.truthy customer_email
   && String.eqb (Py.lower (default "" (o !! "email")))
        (Py.lower (Py.str customer_email)))
  || (Py.truthy q
      && (Py.contains (Py.lower (default "" (o !! "order_id")))
            (Py.lower (Py.str q))
          || Py.contains (Py.lower (default "" (o !! "customer_name")))
               (Py.lower (Py.str q)))).

(** The order id a call hands to the graph: an empty one is left out. *)
Definition explicit_id (order_id : option string) : option string :=
  if Py.truthy order_id then order_id else None.

(** The key [lookup_order] compares a stored record by. *)
Definition stored_key (order : Dict) : string :=
  utils.clean (default "" (order !! "order_id")).

End spec.

(** ** A concrete deployment, for the examples *)

Module scenario.

Import schema.

Definition lamp : Dict :=
  <["order_id" := "ORD-4521"]> (<["item" := "Desk Lamp"]> ∅).

Definition kettle : Dict :=
  <["order_id" := "ord 77"]> (<["item" := "Kettle"]> ∅).

Definition ava : Dict :=
  <["order_id" := "ORD1001"]>
    (<["email" := "Ava.Chen@example.com"]>
       (<["customer_name" := "Ava Chen"]> ∅)).

Definition mock_data (filename : string) : option (list Dict) :=
  if String.eqb filename "orders.json" then Some [lamp; kettle]
  else if String.eqb filename "replies.json" then
    Some [<["issue_type" := "damaged_item"]>
            (<["template" := "Sorry about the damage to order {{order_id}}."]> ∅)]
  else None.

Definition raw_issues : list string :=
  ["refund_request"; "late_delivery"; "damaged_item"; "other"].

(** A classifier that sees a damaged item and reports no order id. *)
Definition structured_llm (msgs : list Message) : graph.LLMReply :=
  graph.Structured "damaged_item" None.

(** A classifier whose answer names no member of the enumeration. *)
Definition unrecognized_llm (msgs : list Message) : graph.LLMReply :=
  graph.Structured "billing_dispute" None.

(** A classifier whose answer is not structured at all. *)
Definition garbled_llm (msgs : list Message) : graph.LLMReply :=
  graph.Unparseable.

(** A classifier that reports the order id [oid]. *)
Definition reporting_llm (oid : string) (msgs : list Message)
  : graph.LLMReply :=
  graph.Structured "damaged_item" (Some oid).

Definition chat_llm (msgs : list Message) : result Message :=
  Ok (AIMessage "We are on it.").

Definition json_dumps (order : Dict) : string :=
  default "" (order !! "item").

Definition render (p : graph.DraftPrompt) : string :=
  match p with
  | graph.AskForOrderId _ _ _ => "ask for the order id"
  | graph.UseTemplate _ _ template _ => template
  end.

Definition today : string := "2025-01-15".

(** A ticket that writes the order id with a tab between the letters and
    the digits, and the match the pattern finds in it. *)
Definition tab_match : string := "ORD" +:+ String "009"%char "77".

Definition tab_text : string := "about " +:+ tab_match +:+ ", please".

Definition first_call : main.TriageInput :=
  {| main.ticket_text := "My order ORD-4521 arrived broken";
     main.order_id := None;
     main.conversation_id := Some "thread-1" |}.

Definition second_call : main.TriageInput :=
  {| main.ticket_text := "How long will that take?";
     main.order_id := None;
     main.conversation_id := Some "thread-1" |}.

Definition triage (llm : list Message -> graph.LLMReply)
  (saver : gmap string AgentState) (body : main.TriageInput)
  : main.HttpResponse * gmap string AgentState :=
  main.triage_invoke mock_data raw_issues llm chat_llm json_dumps render
    today [lamp; kettle] saver "00000000-0000-4000-8000-000000000000" body.

End scenario.

(** * Properties *)

(** ** Characters and strings *)

Section StringFacts.

Lemma upper_char_idem (c : ascii) :
  Py.upper_char (Py.upper_char c) = Py.upper_char c.
Proof. destruct c as [[] [] [] [] [] [] [] []]; reflexivity. Qed.

Lemma upper_char_dash (c : ascii) :
  Ascii.eqb (Py.upper_char c) "-" = Ascii.eqb c "-".
Proof. destruct c as [[] [] [] [] [] [] [] []]; reflexivity. Qed.

Lemma upper_char_space (c : ascii) :
  Ascii.eqb (Py.upper_char c) " " = Ascii.eqb c " ".
Proof. destruct c as [[] [] [] [] [] [] [] []]; reflexivity. Qed.

Lemma upper_idem (s : string) : Py.upper (Py.upper s) = Py.upper s.
Proof.
  induction s as [|c s IH]; simpl; [reflexivity|].
  now rewrite upper_char_idem, IH.
Qed.

Lemma replace_drop_idem (old : ascii) (s : string) :
  Py.replace_drop old (Py.replace_drop old s) = Py.replace_drop old s.
Proof.
  induction s as [|c s IH]; simpl; [reflexivity|].
  destruct (Ascii.eqb c old) eqn:E; simpl; [exact IH|].
  now rewrite E, IH.
Qed.

Lemma replace_drop_comm (a b : ascii) (s : string) :
  Py.replace_drop a (Py.replace_drop b s)
  = Py.replace_drop b (Py.replace_drop a s).
Proof.
  induction s as [|c s IH]; simpl; [reflexivity|].
  destruct (Ascii.eqb c b) eqn:Eb, (Ascii.eqb c a) eqn:Ea; simpl;
    rewrite ?Ea, ?Eb, ?IH; reflexivity.
Qed.

Lemma upper_drop_dash (s : string) :
  Py.replace_drop "-" (Py.upper s) = Py.upper (Py.replace_drop "-" s).
Proof.
  induction s as [|c s IH]; simpl; [reflexivity|].
  rewrite upper_char_dash.
  destruct (Ascii.eqb c "-"); simpl; now rewrite IH.
Qed.

Lemma upper_drop_space (s : string) :
  Py.replace_drop " " (Py.upper s) = Py.upper (Py.replace_drop " " s).
Proof.
  induction s as [|c s IH]; simpl; [reflexivity|].
  rewrite upper_char_space.
  destruct (Ascii.eqb c " "); simpl; now rewrite IH.
Qed.

(** The two spellings of the normalization in the sources agree. *)
Lemma canonical_clean (x : string) : graph.canonical x = utils.clean x.
Proof.
  unfold graph.canonical, utils.clean.
  now rewrite upper_drop_space, upper_drop_dash, replace_drop_comm.
Qed.

Lemma clean_idem (x : string) : utils.clean (utils.clean x) = utils.clean x.
Proof.
  unfold utils.clean.
  rewrite upper_drop_dash, upper_drop_space, upper_idem.
  rewrite (replace_drop_comm "-" " " (Py.replace_drop "-" x)).
  now rewrite !replace_drop_idem.
Qed.

Lemma canonical_idem (x : string) :
  graph.canonical (graph.canonical x) = graph.canonical x.
Proof. rewrite !canonical_clean. apply clean_idem. Qed.

End StringFacts.

(** C7.  Normalization is idempotent and insensitive to case and
    separators: in both spellings the sources use (the comparison key of
    [lookup_order] and the id taken from the ticket text), normalizing
    twice is normalizing once, and "ORD-123" and "ord 123" both
    normalize to "ORD123". *)
Theorem C7_normalize_idempotent :
  (forall x : string, utils.clean (utils.clean x) = utils.clean x)
  /\ (forall x : string,
        graph.canonical (graph.canonical x) = graph.canonical x)
  /\ (forall x : string, graph.canonical x = utils.clean x)
  /\ utils.clean "ORD-123" = "ORD123"
  /\ utils.clean "ord 123" = "ORD123"
  /\ graph.canonical "ORD-123" = "ORD123"
  /\ graph.canonical "ord 123" = "ORD123".
Proof.
  split; [exact clean_idem|].
  split; [exact canonical_idem|].
  split; [exact canonical_clean|].
  repeat split; reflexivity.
Qed.

(** ** Substrings *)

Section Substrings.

Lemma append_nil (s : string) : "" +:+ s = s.
Proof. reflexivity. Qed.

Lemma append_cons (c : ascii) (s t : string) :
  String c s +:+ t = String c (s +:+ t).
Proof. reflexivity. Qed.

Lemma startswith_spec (p s : string) :
  Py.startswith p s = true <-> exists post, s = p +:+ post.
Proof.
  revert s; induction p as [|a p IH]; intros s; simpl.
  - split; [intros _; now exists s | reflexivity].
  - destruct s as [|b s].
    + split; [discriminate | intros [post H]; rewrite append_cons in H; discriminate].
    + rewrite andb_true_iff, Ascii.eqb_eq, IH. split.
      * intros [-> [post ->]]. now exists post.
      * intros [post H]. rewrite append_cons in H.
        injection H as -> ->. split; [reflexivity | now exists post].
Qed.

Lemma contains_unfold (sub s : string) :
  Py.contains sub s =
  Py.startswith sub s ||
  match s with
  | EmptyString => false
  | String _ s' => Py.contains sub s'
  end.
Proof. destruct s; reflexivity. Qed.

Lemma contains_spec (sub s : string) :
  Py.contains sub s = true <-> spec.Occurs sub s.
Proof.
  unfold spec.Occurs. split.
  - induction s as [|c s IH]; rewrite contains_unfold, orb_true_iff.
    + intros [H|H]; [|discriminate].
      apply startswith_spec in H as [post ->]. now exists "", post.
    + intros [H|H].
      * apply startswith_spec in H as [post ->]. now exists "", post.
      * destruct (IH H) as (pre & post & ->).
        exists (String c pre), post. now rewrite append_cons.
  - intros (pre & post & ->).
    induction pre as [|c pre IH]; rewrite contains_unfold, orb_true_iff.
    + left. rewrite append_nil. apply startswith_spec. now exists post.
    + right. rewrite append_cons. exact IH.
Qed.

End Substrings.

(** ** The pattern search *)

Section PatternFacts.

Lemma upper_char_O (c : ascii) :
  Ascii.eqb (Py.upper_char c) "O" = true ->
  Py.upper_char c = "O"%char
  /\ Ascii.eqb (Py.upper_char c) " " = false
  /\ Ascii.eqb (Py.upper_char c) "-" = false.
Proof. intros H. apply Ascii.eqb_eq in H. rewrite H. now repeat split. Qed.

(** A match begins with the letter O in either case, so what is left of
    it after normalization is not empty. *)
Lemma match_here_truthy (s m : string) :
  Re.match_here s = Some m -> Py.truthy_str (graph.canonical m) = true.
Proof.
  unfold Re.match_here.
  destruct s as [|o [|r [|d rest]]]; try discriminate.
  destruct (Ascii.eqb (Py.upper_char o) "O") eqn:EO; simpl; [|discriminate].
  destruct (upper_char_O o EO) as (_ & Hs & Hd).
  assert (Hhead : forall tl, Py.truthy_str (graph.canonical (String o tl)) = true).
  { intros tl. unfold graph.canonical. simpl. rewrite Hs. simpl. now rewrite Hd. }
  destruct (Ascii.eqb (Py.upper_char r) "R" && Ascii.eqb (Py.upper_char d) "D");
    [|discriminate].
  cbv zeta. intros H.
  destruct rest as [|c rest']; [discriminate|].
  destruct (Re.digits (String c rest')) as [[|e0 es] r0];
    destruct (Re.is_sep c);
    try destruct (Re.digits rest') as [[|d0 ds] r1];
    try discriminate; injection H as <-; apply Hhead.
Qed.

Lemma search_unfold (text : string) :
  Re.search text =
  match Re.match_here text with
  | Some m => Some m
  | None =>
      match text with
      | EmptyString => None
      | String _ text' => Re.search text'
      end
  end.
Proof. destruct text; reflexivity. Qed.

Lemma search_truthy (text m : string) :
  Re.search text = Some m -> Py.truthy_str (graph.canonical m) = true.
Proof.
  induction text as [|c text IH]; rewrite search_unfold.
  - discriminate.
  - destruct (Re.match_here (String c text)) eqn:E.
    + intros [= <-]. eapply match_here_truthy, E.
    + exact IH.
Qed.

Lemma search_empty : Re.search "" = None.
Proof. reflexivity. Qed.

Lemma digits_split (s d rest : string) :
  Re.digits s = (d, rest) -> s = d +:+ rest.
Proof.
  revert d rest; induction s as [|c s IH]; intros d rest; cbn [Re.digits].
  - now intros [= <- <-].
  - destruct (Py.is_digit c); [|now intros [= <- <-]].
    destruct (Re.digits s) as [d' rest']. intros [= <- <-].
    rewrite append_cons. f_equal. now apply IH.
Qed.

(** A match is a prefix of the text it was found at. *)
Lemma match_here_prefix (s m : string) :
  Re.match_here s = Some m -> exists rest, s = m +:+ rest.
Proof.
  unfold Re.match_here.
  destruct s as [|o [|r [|d rest]]]; try discriminate.
  destruct (_ && _); [|discriminate]. cbv zeta.
  destruct rest as [|c rest']; [discriminate|].
  destruct (Re.digits (String c rest')) as [[|e0 es] r0] eqn:E0;
    destruct (Re.is_sep c);
    try destruct (Re.digits rest') as [[|d0 ds] r1] eqn:E1;
    try discriminate; intros [= <-];
    try (apply digits_split in E1; exists r1; rewrite E1; reflexivity);
    apply digits_split in E0; exists r0; rewrite E0; reflexivity.
Qed.

(** What the search returns occurs in the text. *)
Lemma search_occurs (text m : string) :
  Re.search text = Some m -> spec.Occurs m text.
Proof.
  induction text as [|c text IH]; rewrite search_unfold.
  - discriminate.
  - destruct (Re.match_here (String c text)) eqn:E.
    + intros [= <-]. apply match_here_prefix in E as [rest ->].
      now exists "", rest.
    + intros H. destruct (IH H) as (pre & post & ->).
      exists (String c pre), post. now rewrite append_cons.
Qed.

Example search_dash :
  Re.search "My order ORD-4521 arrived broken" = Some "ORD-4521".
Proof. reflexivity. Qed.

Example search_lower_space :
  Re.search "about ord 77, please" = Some "ord 77".
Proof. reflexivity. Qed.

Example search_leftmost : Re.search "ORD--1 then xOrD9y8" = Some "OrD9".
Proof. reflexivity. Qed.

Example search_none : Re.search "Where is my ORDER 5?" = None.
Proof. reflexivity. Qed.

End PatternFacts.

(** ** The order-id resolver *)

Section Resolver.

Lemma screen_nonempty (c : string) :
  c <> "" ->
  graph.screen_candidate (Some c) =
  if existsb (fun x => Py.contains x (Py.upper (Py.strip c))) graph.placeholders
  then None else Some c.
Proof. intros H. destruct c; [congruence | reflexivity]. Qed.

Lemma discarded_iff (c : string) :
  spec.discarded c = true <->
  c = "" \/
  exists x, In x graph.placeholders /\ spec.Occurs x (Py.upper (Py.strip c)).
Proof.
  unfold spec.discarded. destruct c as [|a c].
  - split; [now left | reflexivity].
  - rewrite screen_nonempty by discriminate.
    destruct (existsb _ graph.placeholders) eqn:E.
    + split; [intros _; right | reflexivity].
      apply existsb_exists in E as (x & Hin & Hx).
      exists x. split; [exact Hin | now apply contains_spec].
    + split; [discriminate|]. intros [H|(x & Hin & Hx)]; [discriminate|].
      apply contains_spec in Hx.
      assert (existsb (fun x => Py.contains x (Py.upper (Py.strip (String a c))))
                graph.placeholders = true) as E'
        by (apply existsb_exists; eauto).
      congruence.
Qed.

Lemma screen_kept (c : string) :
  spec.discarded c = false -> graph.screen_candidate (Some c) = Some c.
Proof.
  unfold spec.discarded. destruct c as [|a c]; [discriminate|].
  rewrite screen_nonempty by discriminate.
  now destruct (existsb _ graph.placeholders).
Qed.

Lemma screen_rejected (cand : option string) :
  spec.absent_or_rejected cand ->
  Py.truthy (graph.screen_candidate cand) = false.
Proof.
  destruct cand as [c|]; [|reflexivity].
  unfold spec.absent_or_rejected, spec.discarded.
  now destruct (Py.truthy (graph.screen_candidate (Some c))).
Qed.

(** With nothing held after the screen, the text decides, then the
    state. *)
Lemma resolve_fallback (cand text pers : option string) :
  Py.truthy (graph.screen_candidate cand) = false ->
  graph.resolve_order_id cand text pers =
  match spec.text_id text with Some m => Some m | None => pers end.
Proof.
  intros H. unfold graph.resolve_order_id, graph.from_text, graph.from_state.
  rewrite H. cbn [negb andb].
  destruct text as [[|a t]|]; cbn [Py.truthy Py.truthy_str Py.str spec.text_id];
    rewrite ?H; try reflexivity.
  destruct (Re.search (String a t)) as [m|] eqn:E; cbn [option_map].
  - cbn [Py.truthy]. now rewrite (search_truthy _ _ E).
  - now rewrite H.
Qed.

Lemma resolve_kept (c : string) (text pers : option string) :
  spec.discarded c = false ->
  graph.resolve_order_id (Some c) text pers = Some c.
Proof.
  intros H. unfold graph.resolve_order_id, graph.from_text, graph.from_state.
  rewrite (screen_kept _ H).
  assert (Py.truthy (Some c) = true) as Ht.
  { pose proof H as H'. unfold spec.discarded in H'.
    rewrite (screen_kept _ H) in H'. now destruct (Py.truthy (Some c)). }
  rewrite Ht. cbn [negb andb]. now rewrite Ht.
Qed.

(** The resolver is the precedence cascade of the specification. *)
Lemma resolve_first_match_wins (cand text pers : option string) :
  graph.resolve_order_id cand text pers
  = spec.first_match_wins cand text pers.
Proof.
  destruct cand as [c|]; simpl.
  - destruct (spec.discarded c) eqn:E.
    + apply resolve_fallback. now apply (screen_rejected (Some c)).
    + now apply resolve_kept.
  - now apply resolve_fallback.
Qed.

(** An id taken from the text is a fixed point of the normalization. *)
Lemma text_id_normalized (text : option string) (m : string) :
  spec.text_id text = Some m -> graph.canonical m = m.
Proof.
  destruct text as [t|]; simpl; [|discriminate].
  destruct (Re.search t); simpl; [|discriminate].
  intros [= <-]. apply canonical_idem.
Qed.

End Resolver.

(** The scenarios of the specification, on the resolver alone: an id in
    the text and none reported; no id anywhere; the id of the previous
    turn handed in as the state's; the reported placeholder UNKNOWN. *)
Example resolve_scenario_a :
  graph.resolve_order_id None (Some "My order ORD-4521 arrived broken") None
  = Some "ORD4521".
Proof. reflexivity. Qed.

Example resolve_scenario_b :
  graph.resolve_order_id None (Some "Where is my package?") None = None.
Proof. reflexivity. Qed.

Example resolve_scenario_c :
  graph.resolve_order_id None (Some "How long will that take?")
    (Some "ORD4521") = Some "ORD4521".
Proof. reflexivity. Qed.

Example resolve_scenario_d :
  graph.resolve_order_id (Some "UNKNOWN") (Some "no pattern here") None
  = None.
Proof. reflexivity. Qed.

(** C2 (as stated, refuted).  The candidate "XNULL9" is none of the five
    placeholder tokens after trimming and upper-casing, yet it is
    discarded: the turn resolves exactly as if no id had been reported. *)
Lemma C2_placeholder_exact_match_fails :
  spec.is_placeholder_token "XNULL9" = false
  /\ spec.discarded "XNULL9" = true
  /\ graph.resolve_order_id (Some "XNULL9") None None = None
  /\ ~ (forall c : string,
          spec.discarded c = true <-> spec.is_placeholder_token c = true).
Proof.
  repeat split; try reflexivity.
  intros H. specialize (H "XNULL9"). destruct H as [H _].
  specialize (H eq_refl). discriminate.
Qed.

(** C2 (amended).  A candidate reported by the classifier is discarded
    exactly when it is empty or its trimmed, upper-cased form contains
    one of the five tokens N/A, NONE, NULL, NOT PROVIDED, UNKNOWN as a
    substring.  A discarded candidate is treated as no id reported; any
    other candidate is the resolved id. *)
Theorem C2_placeholder_rejection (c : string) :
  (spec.discarded c = true <->
   c = "" \/
   exists x, In x ["N/A"; "NONE"; "NULL"; "NOT PROVIDED"; "UNKNOWN"]
             /\ spec.Occurs x (Py.upper (Py.strip c)))
  /\ (spec.discarded c = true ->
      forall text pers,
        graph.resolve_order_id (Some c) text pers
        = graph.resolve_order_id None text pers)
  /\ (spec.discarded c = false ->
      forall text pers, graph.resolve_order_id (Some c) text pers = Some c).
Proof.
  split; [apply discarded_iff|]. split.
  - intros H text pers.
    rewrite (resolve_fallback (Some c)) by now apply (screen_rejected (Some c)).
    now rewrite (resolve_fallback None).
  - intros H text pers. now apply resolve_kept.
Qed.

(** The three placeholders the specification names, in mixed case and
    with surrounding blanks, are discarded. *)
Lemma C2_placeholder_rejection_witness :
  spec.discarded " Not Provided " = true
  /\ (forall text pers,
        graph.resolve_order_id (Some " Not Provided ") text pers
        = graph.resolve_order_id None text pers).
Proof.
  split; [reflexivity|].
  apply (proj1 (proj2 (C2_placeholder_rejection " Not Provided "))).
  reflexivity.
Defined.

(** C3 (the code departs from the claim).  A candidate the classifier
    reports, and an id held in the state, leave the resolver as they
    came in: "ord-123" is resolved to "ord-123", whose normalization is
    "ORD123". *)
Theorem C3_resolver_output_not_normalized :
  graph.resolve_order_id (Some "ord-123") None None = Some "ord-123"
  /\ graph.resolve_order_id None (Some "no id here") (Some "ORD-123")
     = Some "ORD-123"
  /\ graph.canonical "ord-123" = "ORD123"
  /\ graph.canonical "ORD-123" = "ORD123"
  /\ (exists u,
        graph.classify_node scenario.raw_issues
          (scenario.reporting_llm "ord-123") schema.empty_state = Ok u
        /\ schema.upd_order_id u = Some (Some "ord-123")).
Proof.
  repeat split; try reflexivity.
  eexists. split; reflexivity.
Qed.

(** C6 (as stated, refuted).  The candidate "XNULL9" is none of the five
    placeholder tokens, yet it does not win: with the id ORD-2 in the
    text and ORD3 in the state the resolved id is the one of the text. *)
Lemma C6_nonplaceholder_candidate_loses :
  spec.is_placeholder_token "XNULL9" = false
  /\ graph.resolve_order_id (Some "XNULL9") (Some "see ORD-2") (Some "ORD3")
     = Some "ORD2"
  /\ graph.resolve_order_id (Some "XNULL9") (Some "no id here") (Some "ORD3")
     = Some "ORD3"
  /\ ~ (forall c text pers,
          spec.is_placeholder_token c = false ->
          graph.resolve_order_id (Some c) text pers = Some c).
Proof.
  repeat split; try reflexivity.
  intros H. specialize (H "XNULL9" None None eq_refl). discriminate H.
Qed.

Lemma passes_screen_kept (c : string) :
  spec.passes_screen c -> spec.discarded c = false.
Proof.
  intros [Hne Hno]. destruct (spec.discarded c) eqn:E; [|reflexivity].
  apply discarded_iff in E as [->|(x & Hin & Hx)]; [congruence|].
  now destruct (Hno x Hin).
Qed.

Lemma fails_screen_rejected (cand : option string) :
  spec.fails_screen cand -> spec.absent_or_rejected cand.
Proof.
  destruct cand as [c|]; [|trivial]. cbn. apply discarded_iff.
Qed.

Lemma screen_decided (c : string) :
  spec.passes_screen c \/ spec.fails_screen (Some c).
Proof.
  destruct (spec.discarded c) eqn:E.
  - right. cbn. now apply discarded_iff.
  - left. split.
    + intros ->. discriminate E.
    + intros x Hin Hx.
      assert (spec.discarded c = true) by (apply discarded_iff; eauto).
      congruence.
Qed.

Lemma passes_screen_kept_conv (c : string) :
  spec.discarded c = false -> spec.passes_screen c.
Proof.
  intros E. destruct (screen_decided c) as [H|H]; [exact H|].
  apply (fails_screen_rejected (Some c)) in H. cbn in H. congruence.
Qed.

(** C6 (amended).  Resolver precedence: a candidate that is not empty
    and whose trimmed, upper-cased form contains none of the five
    tokens N/A, NONE, NULL, NOT PROVIDED, UNKNOWN is the resolved id,
    whatever the ticket text and the state hold; the id found in the
    text is used only when the candidate is absent, empty or contains
    one of the tokens; the id held in the state only when neither of
    the two yields one.  Every candidate falls under one of the two
    cases. *)
Theorem C6_resolver_precedence (cand text pers : option string) :
  (forall c, cand = Some c -> spec.passes_screen c ->
             graph.resolve_order_id cand text pers = Some c)
  /\ (spec.fails_screen cand ->
      forall m, spec.text_id text = Some m ->
                graph.resolve_order_id cand text pers = Some m)
  /\ (spec.fails_screen cand -> spec.text_id text = None ->
      graph.resolve_order_id cand text pers = pers)
  /\ (forall c, cand = Some c ->
        spec.passes_screen c \/ spec.fails_screen cand).
Proof.
  split; [|split; [|split]].
  - intros c -> H. now apply resolve_kept, passes_screen_kept.
  - intros H m Hm.
    rewrite resolve_fallback
      by now apply screen_rejected, fails_screen_rejected.
    now rewrite Hm.
  - intros H Hm.
    rewrite resolve_fallback
      by now apply screen_rejected, fails_screen_rejected.
    now rewrite Hm.
  - intros c ->. apply screen_decided.
Qed.

(** The classifier's id wins over a different id in the text and a
    third one in the state; a placeholder gives way to the text, and
    the state serves when neither yields an id. *)
Lemma C6_resolver_precedence_witness :
  graph.resolve_order_id (Some "ORD-1") (Some "see ORD-2") (Some "ORD3")
  = Some "ORD-1"
  /\ graph.resolve_order_id (Some "n/a") (Some "see ORD-2") (Some "ORD3")
     = Some "ORD2"
  /\ graph.resolve_order_id None (Some "no id") (Some "ORD3") = Some "ORD3".
Proof.
  split; [|split].
  - apply (proj1 (C6_resolver_precedence (Some "ORD-1") (Some "see ORD-2")
                    (Some "ORD3")) "ORD-1"); [reflexivity|].
    apply passes_screen_kept_conv. reflexivity.
  - apply (proj1 (proj2 (C6_resolver_precedence (Some "n/a")
                           (Some "see ORD-2") (Some "ORD3"))));
      [|reflexivity].
    right. exists "N/A". split; [now left|]. now exists "", "".
  - apply (proj1 (proj2 (proj2 (C6_resolver_precedence None (Some "no id")
                                  (Some "ORD3"))))); [exact I | reflexivity].
Defined.

(** ** Runs of the graph *)

Section GraphFacts.

Import schema.

Variable mock_data : string -> option (list Dict).
Variable raw_issues : list string.
Variable structured_llm : list Message -> graph.LLMReply.
Variable chat_llm : list Message -> result Message.
Variable json_dumps : Dict -> string.
Variable render : graph.DraftPrompt -> string.
Variable today : string.

Local Abbreviation builder :=
  (graph.builder mock_data raw_issues structured_llm chat_llm json_dumps
     render today).
Local Abbreviation classify_node :=
  (graph.classify_node raw_issues structured_llm).
Local Abbreviation fetch_order_node :=
  (graph.fetch_order_node mock_data json_dumps).
Local Abbreviation draft_reply_node :=
  (graph.draft_reply_node mock_data chat_llm render today).
Local Abbreviation after_fetch := (spec.after_fetch mock_data json_dumps).
Local Abbreviation at_draft := (spec.at_draft mock_data json_dumps).

(** One step of a run at a node of the graph. *)
Lemma run_from_step (g : graph.StateGraph) (limit : nat) (n : string)
  (s : AgentState) (seen : list string)
  (node : AgentState -> result Update) :
  String.eqb n graph.END = false ->
  graph.assoc n (graph.nodes g) = Some node ->
  graph.run_from g (S limit) n s seen =
  match node s with
  | Raise e => {| graph.trace := seen ++ [n]; graph.final_state := s;
                  graph.outcome := Raise e |}
  | Ok u => graph.resume g limit n (apply_update s u) seen
  end.
Proof.
  intros Hn Hnode. cbn [graph.run_from]. rewrite Hn, Hnode.
  destruct (node s); reflexivity.
Qed.

Lemma run_from_end (g : graph.StateGraph) (limit : nat) (s : AgentState)
  (seen : list string) :
  graph.run_from g limit graph.END s seen =
  {| graph.trace := seen; graph.final_state := s; graph.outcome := Ok tt |}.
Proof. destruct limit; reflexivity. Qed.

Lemma successor_start (s : AgentState) :
  graph.successor builder graph.START s = Some "classify".
Proof. reflexivity. Qed.

Lemma successor_classify (s : AgentState) :
  graph.successor builder "classify" s =
  Some (if Py.truthy (order_id s) then "fetch_order" else "draft_reply").
Proof.
  unfold graph.successor. cbn [graph.branches builder graph.builder graph.assoc].
  cbn. unfold graph.route_ticket. now destruct (Py.truthy (order_id s)).
Qed.

Lemma successor_fetch_order (s : AgentState) :
  graph.successor builder "fetch_order" s = Some "draft_reply".
Proof. reflexivity. Qed.

Lemma successor_draft_reply (s : AgentState) :
  graph.successor builder "draft_reply" s = Some graph.END.
Proof. reflexivity. Qed.

(** The step of the drafting node, which ends the run. *)
Lemma run_draft_reply (k : nat) (s : AgentState) (seen : list string) :
  graph.run_from builder (S k) "draft_reply" s seen =
  match draft_reply_node s with
  | Raise e => {| graph.trace := seen ++ ["draft_reply"];
                  graph.final_state := s; graph.outcome := Raise e |}
  | Ok u => {| graph.trace := seen ++ ["draft_reply"];
               graph.final_state := apply_update s u;
               graph.outcome := Ok tt |}
  end.
Proof.
  rewrite (run_from_step builder k "draft_reply" s seen draft_reply_node)
    by reflexivity.
  destruct (draft_reply_node s) as [u|e]; [|reflexivity].
  unfold graph.resume. rewrite successor_draft_reply. apply run_from_end.
Qed.

(** The lookup node always returns: one tool message, nothing else. *)
Lemma fetch_order_node_ok (s : AgentState) :
  fetch_order_node s =
  Ok {| upd_messages := [spec.tool_entry mock_data json_dumps s];
        upd_ticket_text := None;
        upd_issue_type := None;
        upd_order_id := None |}.
Proof. reflexivity. Qed.

Lemma run_fetch_order (k : nat) (s : AgentState) (seen : list string) :
  graph.run_from builder (S (S k)) "fetch_order" s seen =
  graph.run_from builder (S k) "draft_reply" (after_fetch s)
    (seen ++ ["fetch_order"]).
Proof.
  rewrite (run_from_step builder (S k) "fetch_order" s seen fetch_order_node)
    by reflexivity.
  rewrite fetch_order_node_ok. unfold graph.resume.
  rewrite successor_fetch_order. reflexivity.
Qed.

(** What follows classification, in full. *)
Lemma resume_classify (k : nat) (s : AgentState) :
  graph.resume builder (S (S k)) "classify" s [] =
  match draft_reply_node (at_draft s) with
  | Raise e => {| graph.trace := spec.route_of s;
                  graph.final_state := at_draft s;
                  graph.outcome := Raise e |}
  | Ok u => {| graph.trace := spec.route_of s;
               graph.final_state := apply_update (at_draft s) u;
               graph.outcome := Ok tt |}
  end.
Proof.
  unfold graph.resume, spec.at_draft, spec.route_of. rewrite successor_classify.
  destruct (Py.truthy (order_id s)).
  - rewrite run_fetch_order, run_draft_reply.
    destruct (draft_reply_node (after_fetch s)); reflexivity.
  - rewrite run_draft_reply.
    destruct (draft_reply_node s); reflexivity.
Qed.

(** A run from the start node, in full. *)
Lemma run_classify (k : nat) (s : AgentState) :
  graph.run_from builder (S (S (S k))) "classify" s [] =
  match classify_node s with
  | Raise e => {| graph.trace := ["classify"]; graph.final_state := s;
                  graph.outcome := Raise e |}
  | Ok u => graph.resume builder (S (S k)) "classify" (apply_update s u) []
  end.
Proof.
  now rewrite (run_from_step builder (S (S k)) "classify" s [] classify_node)
    by reflexivity.
Qed.

End GraphFacts.

(** ** Routing and the lookup step *)

Section Pipeline.

Import schema.

Variable mock_data : string -> option (list Dict).
Variable raw_issues : list string.
Variable structured_llm : list Message -> graph.LLMReply.
Variable chat_llm : list Message -> result Message.
Variable json_dumps : Dict -> string.
Variable render : graph.DraftPrompt -> string.
Variable today : string.

Local Abbreviation builder :=
  (graph.builder mock_data raw_issues structured_llm chat_llm json_dumps
     render today).
Local Abbreviation draft_reply_node :=
  (graph.draft_reply_node mock_data chat_llm render today).

(** C5.  Router correctness.  From any state [s] left by
    classification, the run enters the lookup step exactly when [s]
    holds an order id, and then enters drafting right after it; with no
    order id it enters drafting directly.  No node is entered twice, and
    the run ends with the outcome of the drafting step. *)
Theorem C5_router_correctness (s : AgentState) (k : nat) :
  let r := graph.resume builder (S (S k)) "classify" s [] in
  (In "fetch_order" (graph.trace r) <-> Py.truthy (order_id s) = true)
  /\ graph.trace r =
     (if Py.truthy (order_id s)
      then ["classify"; "fetch_order"; "draft_reply"]
      else ["classify"; "draft_reply"])
  /\ graph.route_ticket s =
     (if Py.truthy (order_id s) then "fetch_order" else "draft_reply")
  /\ NoDup (graph.trace r)
  /\ graph.outcome r =
     match draft_reply_node (spec.at_draft mock_data json_dumps s) with
     | Ok _ => Ok tt
     | Raise e => Raise e
     end.
Proof.
  cbv zeta. rewrite resume_classify. unfold spec.route_of.
  assert (Htrace :
    graph.trace
      (match draft_reply_node (spec.at_draft mock_data json_dumps s) with
       | Ok u => {| graph.trace := spec.route_of s;
                    graph.final_state :=
                      apply_update (spec.at_draft mock_data json_dumps s) u;
                    graph.outcome := Ok tt |}
       | Raise e => {| graph.trace := spec.route_of s;
                       graph.final_state := spec.at_draft mock_data json_dumps s;
                       graph.outcome := Raise e |}
       end) = spec.route_of s)
    by (destruct (draft_reply_node _); reflexivity).
  unfold spec.route_of in *. rewrite Htrace.
  repeat split.
  - destruct (Py.truthy (order_id s)); [reflexivity|].
    cbn. intros [H|[H|[]]]; discriminate.
  - intros ->. cbn. auto.
  - destruct (Py.truthy (order_id s)); repeat constructor;
      rewrite ?elem_of_cons, elem_of_nil; intuition discriminate.
  - destruct (draft_reply_node _); reflexivity.
Qed.

(** What the lookup tool answers, by what the lookup returned. *)
Lemma fetch_order_tool_cases (oid : string) :
  let content := graph.fetch_order_tool mock_data json_dumps oid in
  (forall order,
     utils.lookup_order mock_data (Some oid) = Some order ->
     order <> ∅ -> content = json_dumps order)
  /\ (utils.lookup_order mock_data (Some oid) = None ->
      content = "Order ID " +:+ oid +:+ " not found in the database.")
  /\ (content = "Order ID " +:+ oid +:+ " not found in the database."
      \/ exists order,
           utils.lookup_order mock_data (Some oid) = Some order
           /\ content = json_dumps order).
Proof.
  cbv zeta. unfold graph.fetch_order_tool.
  destruct (utils.lookup_order mock_data (Some oid)) as [order|] eqn:E.
  - split; [|split].
    + intros o [= <-] Hne. now rewrite bool_decide_eq_false_2.
    + discriminate.
    + destruct (bool_decide (order = ∅)); [now left | right; eauto].
  - split; [|split].
    + discriminate.
    + reflexivity.
    + now left.
Qed.

(** C9.  A lookup miss is not an error.  On every state the lookup node
    returns; its update is exactly one tool message named "fetch_order"
    that answers the call for the state's order id; the message holds
    the serialized record when the lookup returned a record and the
    not-found sentence when it returned none.  Applying the update
    appends that message to the transcript and leaves the order id and
    the issue type as they were; the run goes on to drafting, which
    works on the state with the message in it, and the state the run
    ends in still has the message right after the messages it started
    with. *)
Theorem C9_lookup_miss_is_not_an_error (s : AgentState) (k : nat)
  (seen : list string) :
  let oid := Py.str (order_id s) in
  let r := graph.run_from builder (S (S k)) "fetch_order" s seen in
  exists (content : string) (u : Update),
    graph.fetch_order_node mock_data json_dumps s = Ok u
    /\ u = {| upd_messages :=
                [ToolMessage content "fetch_order" ("call_" +:+ oid)];
              upd_ticket_text := None;
              upd_issue_type := None;
              upd_order_id := None |}
    /\ (forall order,
          utils.lookup_order mock_data (Some oid) = Some order ->
          order <> ∅ -> content = json_dumps order)
    /\ (utils.lookup_order mock_data (Some oid) = None ->
        content = "Order ID " +:+ oid +:+ " not found in the database.")
    /\ (content = "Order ID " +:+ oid +:+ " not found in the database."
        \/ exists order,
             utils.lookup_order mock_data (Some oid) = Some order
             /\ content = json_dumps order)
    /\ messages (apply_update s u) =
       messages s ++ [ToolMessage content "fetch_order" ("call_" +:+ oid)]
    /\ order_id (apply_update s u) = order_id s
    /\ issue_type (apply_update s u) = issue_type s
    /\ graph.trace r = seen ++ ["fetch_order"; "draft_reply"]
    /\ graph.outcome r =
       match draft_reply_node (apply_update s u) with
       | Ok _ => Ok tt
       | Raise e => Raise e
       end
    /\ exists rest,
         messages (graph.final_state r) =
         messages s
         ++ [ToolMessage content "fetch_order" ("call_" +:+ oid)] ++ rest.
Proof.
  cbv zeta.
  exists (graph.fetch_order_tool mock_data json_dumps (Py.str (order_id s))).
  exists {| upd_messages :=
              [ToolMessage
                 (graph.fetch_order_tool mock_data json_dumps
                    (Py.str (order_id s)))
                 "fetch_order" ("call_" +:+ Py.str (order_id s))];
            upd_ticket_text := None;
            upd_issue_type := None;
            upd_order_id := None |}.
  destruct (fetch_order_tool_cases (Py.str (order_id s)))
    as (Hfound & Hnone & Heither).
  split; [reflexivity|]. split; [reflexivity|].
  split; [exact Hfound|]. split; [exact Hnone|]. split; [exact Heither|].
  split; [reflexivity|]. split; [reflexivity|]. split; [reflexivity|].
  rewrite run_fetch_order, run_draft_reply.
  change (spec.after_fetch mock_data json_dumps s)
    with (apply_update s
            {| upd_messages :=
                 [ToolMessage
                    (graph.fetch_order_tool mock_data json_dumps
                       (Py.str (order_id s)))
                    "fetch_order" ("call_" +:+ Py.str (order_id s))];
               upd_ticket_text := None;
               upd_issue_type := None;
               upd_order_id := None |}).
  destruct (draft_reply_node _) as [u'|e];
    cbn [graph.trace graph.outcome graph.final_state].
  - split; [now rewrite <- app_assoc|]. split; [reflexivity|].
    exists (upd_messages u'). cbn [apply_update messages upd_messages].
    now rewrite <- app_assoc.
  - split; [now rewrite <- app_assoc|]. split; [reflexivity|].
    exists []. cbn [apply_update messages upd_messages].
    now rewrite app_nil_r.
Qed.

End Pipeline.

(** ** The order repository *)

Section Repository.

Variable mock_data : string -> option (list Dict).

Lemma lookup_order_find (q : string) :
  q <> "" ->
  utils.lookup_order mock_data (Some q) =
  List.find (fun order => String.eqb (spec.stored_key order) (utils.clean q))
    (utils.load_json mock_data "orders.json").
Proof. intros H. destruct q; [congruence | reflexivity]. Qed.

(** [find] returns the first element that passes the test. *)
Lemma find_first {A : Type} (f : A -> bool) (l : list A) (x : A) :
  In x l -> f x = true ->
  exists pre y post,
    l = pre ++ y :: post /\ List.find f l = Some y /\ f y = true
    /\ (forall z, In z pre -> f z = false).
Proof.
  induction l as [|a l IH]; intros Hin Hx; [destruct Hin|].
  cbn [List.find]. destruct (f a) eqn:Ea.
  - exists [], a, l. repeat split; [exact Ea | intros z []].
  - destruct Hin as [->|Hin]; [congruence|].
    destruct (IH Hin Hx) as (pre & y & post & -> & Hf & Hy & Hpre).
    exists (a :: pre), y, post. repeat split; try assumption.
    intros z [<-|Hz]; [exact Ea | now apply Hpre].
Qed.

(** A hit is a stored record whose key agrees with the query. *)
Lemma lookup_order_sound (q : string) (found : Dict) :
  utils.lookup_order mock_data (Some q) = Some found ->
  In found (utils.load_json mock_data "orders.json")
  /\ spec.stored_key found = utils.clean q.
Proof.
  destruct q as [|a q]; [discriminate|].
  rewrite lookup_order_find by discriminate. intros H.
  apply find_some in H as [Hin Hk]. now apply String.eqb_eq in Hk.
Qed.

End Repository.

(** C8.  The lookup compares normalized ids.  For a query [q] that is an
    id at all (not empty) and a stored record [r] whose id agrees with
    [q] once dashes and spaces are dropped and letters upper-cased, the
    lookup returns a record: the first stored one whose id agrees, which
    is [r] itself when no other stored record agrees; and any other
    spelling of the same id finds the same record. *)
Theorem C8_lookup_normalization_insensitive
  (mock_data : string -> option (list Dict)) (q : string) (r : Dict) :
  q <> "" ->
  In r (utils.load_json mock_data "orders.json") ->
  utils.clean (default "" (r !! "order_id")) = utils.clean q ->
  exists found,
    utils.lookup_order mock_data (Some q) = Some found
    /\ utils.clean (default "" (found !! "order_id")) = utils.clean q
    /\ (exists pre post,
          utils.load_json mock_data "orders.json" = pre ++ found :: post
          /\ forall z, In z pre ->
               utils.clean (default "" (z !! "order_id")) <> utils.clean q)
    /\ ((forall z, In z (utils.load_json mock_data "orders.json") ->
           utils.clean (default "" (z !! "order_id")) = utils.clean q ->
           z = r) ->
        found = r)
    /\ (forall q', q' <> "" -> utils.clean q' = utils.clean q ->
          utils.lookup_order mock_data (Some q') = Some found).
Proof.
  intros Hq Hin Hkey.
  destruct (find_first
              (fun order => String.eqb (spec.stored_key order) (utils.clean q))
              _ r Hin) as (pre & found & post & Hdb & Hfind & Hfound & Hpre).
  { now apply String.eqb_eq. }
  apply String.eqb_eq in Hfound.
  exists found. split; [|split; [|split; [|split]]].
  - now rewrite lookup_order_find.
  - exact Hfound.
  - exists pre, post. split; [exact Hdb|].
    intros z Hz Hk. specialize (Hpre z Hz).
    apply String.eqb_neq in Hpre. now apply Hpre.
  - intros Huniq. apply Huniq; [|exact Hfound].
    rewrite Hdb. apply in_or_app. right. now left.
  - intros q' Hq' Hclean. rewrite lookup_order_find by exact Hq'.
    now rewrite Hclean.
Qed.

(** The record stored as "ORD-4521" is found under "ord 4521". *)
Lemma C8_lookup_normalization_insensitive_witness :
  exists found,
    utils.lookup_order scenario.mock_data (Some "ord 4521") = Some found
    /\ found = scenario.lamp.
Proof.
  destruct (C8_lookup_normalization_insensitive scenario.mock_data
              "ord 4521" scenario.lamp)
    as (found & Hfound & _ & _ & Huniq & _).
  - discriminate.
  - cbn. now left.
  - reflexivity.
  - exists found. split; [exact Hfound|]. apply Huniq.
    intros z [<-|[<-|[]]]; [reflexivity | discriminate].
Defined.

(** C10.  A missing id never matches: for [None] and for the empty
    string [lookup_order] returns [None] whatever the repository holds
    (and whether or not its file exists). *)
Theorem C10_lookup_order_degenerate_id
  (mock_data : string -> option (list Dict)) :
  utils.lookup_order mock_data None = None
  /\ utils.lookup_order mock_data (Some "") = None
  /\ (forall order,
        utils.lookup_order mock_data None <> Some order
        /\ utils.lookup_order mock_data (Some "") <> Some order).
Proof. repeat split; discriminate. Qed.

(** ** Whole turns *)

Section Turns.

Import schema.

Variable mock_data : string -> option (list Dict).
Variable raw_issues : list string.
Variable structured_llm : list Message -> graph.LLMReply.
Variable chat_llm : list Message -> result Message.
Variable json_dumps : Dict -> string.
Variable render : graph.DraftPrompt -> string.
Variable today : string.
Variable ORDERS : list Dict.

Local Abbreviation builder :=
  (graph.builder mock_data raw_issues structured_llm chat_llm json_dumps
     render today).
Local Abbreviation the_graph :=
  (graph.graph mock_data raw_issues structured_llm chat_llm json_dumps
     render today).
Local Abbreviation graph_with_memory :=
  (graph.graph_with_memory mock_data raw_issues structured_llm chat_llm
     json_dumps render today).
Local Abbreviation classify_node :=
  (graph.classify_node raw_issues structured_llm).
Local Abbreviation draft_reply_node :=
  (graph.draft_reply_node mock_data chat_llm render today).
Local Abbreviation triage_invoke :=
  (main.triage_invoke mock_data raw_issues structured_llm chat_llm
     json_dumps render today ORDERS).

Lemma bind_ok_inv {A B : Type} (r : result A) (k : A -> result B) (b : B) :
  r ≫= k = Ok b -> exists a, r = Ok a /\ k a = Ok b.
Proof. destruct r as [a|e]; [eauto | discriminate]. Qed.

Lemma structured_invoke_decodes (msgs : list Message) :
  match graph.structured_invoke raw_issues structured_llm msgs with
  | Ok c =>
      spec.decodes raw_issues (structured_llm msgs) = true
      /\ structured_llm msgs
         = graph.Structured (co_issue_type c) (co_order_id c)
  | Raise _ => spec.decodes raw_issues (structured_llm msgs) = false
  end.
Proof.
  unfold graph.structured_invoke, spec.decodes.
  destruct (structured_llm msgs) as [i o| |d]; try reflexivity.
  destruct (existsb (String.eqb i) raw_issues); [split|]; reflexivity.
Qed.

(** What classification returns, and when it raises. *)
Lemma classify_node_cases (s : AgentState) :
  match classify_node s with
  | Ok u =>
      exists i cand,
        structured_llm (SystemMessage graph.system_prompt :: messages s)
        = graph.Structured i cand
        /\ spec.decodes raw_issues (graph.Structured i cand) = true
        /\ u = {| upd_messages := [];
                  upd_ticket_text := None;
                  upd_issue_type := Some (Some i);
                  upd_order_id :=
                    Some (graph.resolve_order_id cand
                            (graph.text_to_analyze s) (order_id s)) |}
  | Raise _ =>
      spec.decodes raw_issues
        (structured_llm (SystemMessage graph.system_prompt :: messages s))
      = false
  end.
Proof.
  unfold graph.classify_node.
  pose proof (structured_invoke_decodes
                (SystemMessage graph.system_prompt :: messages s)) as H.
  destruct (graph.structured_invoke raw_issues structured_llm _) as [c|e];
    cbn [mbind result_bind]; [|exact H].
  destruct H as [Hd Hs]. exists (co_issue_type c), (co_order_id c).
  rewrite <- Hs. now repeat split.
Qed.

Lemma draft_reply_node_update (s : AgentState) (u : Update) :
  draft_reply_node s = Ok u ->
  upd_issue_type u = None /\ upd_order_id u = None
  /\ exists response, upd_messages u = [response].
Proof.
  unfold graph.draft_reply_node. intros H.
  apply bind_ok_inv in H as (prompt & _ & H).
  apply bind_ok_inv in H as (response & _ & [= <-]).
  cbn. eauto.
Qed.

(** After classification no node writes the order id or the issue type,
    and a run that ends well leaves a reply at the end of the transcript. *)
Lemma resume_classify_fields (k : nat) (s : AgentState) :
  let r := graph.resume builder (S (S k)) "classify" s [] in
  order_id (graph.final_state r) = order_id s
  /\ issue_type (graph.final_state r) = issue_type s
  /\ (graph.outcome r = Ok tt ->
      exists msg, last (messages (graph.final_state r)) = Some msg).
Proof.
  cbv zeta. rewrite resume_classify.
  assert (Ho : order_id (spec.at_draft mock_data json_dumps s) = order_id s)
    by (unfold spec.at_draft; now destruct (Py.truthy (order_id s))).
  assert (Hi : issue_type (spec.at_draft mock_data json_dumps s) = issue_type s)
    by (unfold spec.at_draft; now destruct (Py.truthy (order_id s))).
  destruct (draft_reply_node (spec.at_draft mock_data json_dumps s))
    as [u|e] eqn:E; cbn [graph.final_state graph.outcome].
  - destruct (draft_reply_node_update _ _ E) as (Hui & Huo & response & Hm).
    unfold apply_update. cbn [order_id issue_type messages].
    rewrite Hui, Huo, Hm. cbn [default from_option id].
    repeat split; try assumption.
    intros _. exists response. apply last_snoc.
  - repeat split; try assumption. discriminate.
Qed.

(** The graph as compiled in the source: a run starts from the inputs
    alone and the checkpoint store is left as it was. *)
Lemma invoke_without_checkpointer (saver : gmap string AgentState)
  (inputs : Update) (thread_id : string) :
  graph.invoke the_graph saver inputs thread_id =
  (graph.run_from builder graph.recursion_limit "classify"
     (apply_update empty_state inputs) [], saver).
Proof. reflexivity. Qed.

(** With the checkpointer switched on, a run starts from the state the
    previous run of the thread reached. *)
Lemma invoke_with_checkpointer (saver : gmap string AgentState)
  (inputs : Update) (thread_id : string) :
  graph.invoke graph_with_memory saver inputs thread_id =
  let s0 :=
    apply_update (default empty_state (saver !! thread_id)) inputs in
  let r := graph.run_from builder graph.recursion_limit "classify" s0 [] in
  (r, <[thread_id := graph.final_state r]> saver).
Proof. reflexivity. Qed.

(** A call never writes the store and its answer never depends on it. *)
Lemma triage_invoke_stateless (saver saver' : gmap string AgentState)
  (uuid4 : string) (body : main.TriageInput) :
  snd (triage_invoke saver uuid4 body) = saver
  /\ fst (triage_invoke saver uuid4 body)
     = fst (triage_invoke saver' uuid4 body).
Proof.
  unfold main.triage_invoke. rewrite !invoke_without_checkpointer.
  destruct (graph.outcome _); [|now split].
  destruct (last _); [|now split].
  destruct (if Py.truthy _ then _ else _); now split.
Qed.

(** With the checkpointer switched on the order id would carry over: a
    second run on the same thread whose input brings no order id, whose
    classifier reports none and whose text holds none ends with the
    order id the first run ended with. *)
Lemma continuity_with_checkpointer (saver : gmap string AgentState)
  (thread_id : string) (inputs1 inputs2 : Update) :
  let r1 := fst (graph.invoke graph_with_memory saver inputs1 thread_id) in
  let saver1 := snd (graph.invoke graph_with_memory saver inputs1 thread_id) in
  let r2 := fst (graph.invoke graph_with_memory saver1 inputs2 thread_id) in
  let s0 := apply_update (graph.final_state r1) inputs2 in
  upd_order_id inputs2 = None ->
  (forall i cand,
     structured_llm (SystemMessage graph.system_prompt :: messages s0)
     = graph.Structured i cand ->
     spec.absent_or_rejected cand) ->
  spec.text_id (graph.text_to_analyze s0) = None ->
  graph.outcome r2 = Ok tt ->
  order_id (graph.final_state r2) = order_id (graph.final_state r1).
Proof.
  cbv zeta. rewrite !invoke_with_checkpointer. cbv zeta. cbn [fst snd].
  rewrite lookup_insert_eq. cbn [default from_option id].
  set (r1 := graph.run_from builder graph.recursion_limit "classify" _ []).
  intros Hin Hllm Htext.
  unfold graph.recursion_limit. rewrite run_classify.
  pose proof (classify_node_cases (apply_update (graph.final_state r1) inputs2))
    as Hc.
  destruct (classify_node (apply_update (graph.final_state r1) inputs2))
    as [u|e]; [|discriminate].
  destruct Hc as (i & cand & Hreply & _ & ->). intros _.
  destruct (resume_classify_fields 22
              (apply_update (apply_update (graph.final_state r1) inputs2)
                 {| upd_messages := [];
                    upd_ticket_text := None;
                    upd_issue_type := Some (Some i);
                    upd_order_id :=
                      Some (graph.resolve_order_id cand
                              (graph.text_to_analyze
                                 (apply_update (graph.final_state r1) inputs2))
                              (order_id
                                 (apply_update (graph.final_state r1) inputs2))) |}))
    as (Ho & _ & _).
  rewrite Ho. cbn [apply_update order_id upd_order_id default from_option id].
  rewrite Hin. cbn [default from_option id].
  rewrite resolve_fallback by (apply screen_rejected; eapply Hllm, Hreply).
  cbn [apply_update order_id] in Htext. rewrite Htext.
  reflexivity.
Qed.

(** The nodes one call of the graph enters. *)
Lemma invoke_trace (saver : gmap string AgentState) (inputs : Update)
  (thread_id : string) :
  let s0 := apply_update empty_state inputs in
  graph.trace (fst (graph.invoke the_graph saver inputs thread_id)) =
  match classify_node s0 with
  | Ok u => spec.route_of (apply_update s0 u)
  | Raise _ => ["classify"]
  end.
Proof.
  cbv zeta. rewrite invoke_without_checkpointer. cbn [fst].
  unfold graph.recursion_limit. rewrite run_classify.
  destruct (classify_node _) as [u|e]; [|reflexivity].
  rewrite resume_classify. now destruct (draft_reply_node _).
Qed.

(** The state a call of the endpoint starts the graph from. *)
Lemma initial_messages (body : main.TriageInput) :
  messages (apply_update empty_state (main.inputs_of body))
  = [HumanMessage (main.ticket_text body)].
Proof. reflexivity. Qed.

(** C4 (amended).  A classification answer that does not decode into the
    issue-type enumeration fails the turn: classification raises, no
    routing, lookup or drafting step runs, the call answers with a
    request-level failure (HTTP 500) and nothing is stored.  A call that
    does answer reports the issue type the classifier itself returned, a
    member of the enumeration; no answer is replaced by [other]. *)
Theorem C4_undecodable_classification_fails_turn
  (saver : gmap string AgentState) (uuid4 : string)
  (body : main.TriageInput) :
  let msgs :=
    [SystemMessage graph.system_prompt;
     HumanMessage (main.ticket_text body)] in
  let resp := fst (triage_invoke saver uuid4 body) in
  let r :=
    fst (graph.invoke the_graph saver (main.inputs_of body)
           (main.thread_id_of body uuid4)) in
  (spec.decodes raw_issues (structured_llm msgs) = false ->
   (exists e,
      graph.outcome r = Raise e
      /\ resp = main.Http500 ("Agent Error: " +:+ main.exn_text e))
   /\ graph.trace r = ["classify"]
   /\ snd (triage_invoke saver uuid4 body) = saver)
  /\ (forall out,
        resp = main.Http200 out ->
        exists cand,
          structured_llm msgs
          = graph.Structured (main.out_issue_type out) cand
          /\ In (main.out_issue_type out) raw_issues).
Proof.
  cbv zeta. unfold main.triage_invoke.
  rewrite !invoke_without_checkpointer. cbn [fst snd].
  unfold graph.recursion_limit. rewrite run_classify.
  pose proof (classify_node_cases
                (apply_update empty_state (main.inputs_of body))) as Hc.
  rewrite initial_messages in Hc.
  destruct (classify_node (apply_update empty_state (main.inputs_of body)))
    as [u|e].
  - destruct Hc as (i & cand & Hreply & Hdec & ->). split.
    + rewrite Hreply, Hdec. discriminate.
    + intros out Hout.
      match type of Hout with
      | context [graph.resume ?g ?k ?n ?s ?seen] =>
          destruct (resume_classify_fields 22 s) as (_ & Hi & _);
          cbv zeta in Hi;
          destruct (graph.outcome (graph.resume g k n s seen));
            [|discriminate Hout];
          rewrite Hi in Hout;
          destruct (last (messages (graph.final_state (graph.resume g k n s seen))));
            [|discriminate Hout];
          destruct (if Py.truthy (order_id (graph.final_state (graph.resume g k n s seen)))
                    then _ else _); [|discriminate Hout]
      end.
      cbn in Hout. injection Hout as <-. cbn [main.out_issue_type].
      exists cand. split; [exact Hreply|].
      cbn [spec.decodes] in Hdec.
      apply existsb_exists in Hdec as (x & Hx & Heq).
      apply String.eqb_eq in Heq. now subst.
  - cbn [graph.outcome graph.trace fst snd]. split.
    + intros _. split; [|split]; [eauto | reflexivity | reflexivity].
    + discriminate.
Qed.

End Turns.

(** The deployment of the examples, with an answer outside the
    enumeration: the call fails at classification. *)
Lemma C4_undecodable_classification_fails_turn_witness :
  exists e,
    fst (scenario.triage scenario.unrecognized_llm ∅ scenario.first_call)
    = main.Http500 ("Agent Error: " +:+ main.exn_text e).
Proof.
  destruct (proj1 (C4_undecodable_classification_fails_turn
                     scenario.mock_data scenario.raw_issues
                     scenario.unrecognized_llm scenario.chat_llm
                     scenario.json_dumps scenario.render scenario.today
                     [scenario.lamp; scenario.kettle] ∅
                     "00000000-0000-4000-8000-000000000000"
                     scenario.first_call) eq_refl)
    as ((e & _ & He) & _).
  exists e. exact He.
Defined.

(** C4 (as stated, refuted).  An answer naming no member of the
    enumeration, and an answer that is not structured at all, do not
    yield the issue type [other]: the call fails with HTTP 500 and the
    run stops at classification, before routing and drafting. *)
Lemma C4_no_fallback_to_other :
  fst (scenario.triage scenario.unrecognized_llm ∅ scenario.first_call)
  = main.Http500 "Agent Error: billing_dispute"
  /\ fst (scenario.triage scenario.garbled_llm ∅ scenario.first_call)
     = main.Http500 "Agent Error: OutputParserException"
  /\ graph.trace
       (fst (graph.invoke
               (graph.graph scenario.mock_data scenario.raw_issues
                  scenario.unrecognized_llm scenario.chat_llm
                  scenario.json_dumps scenario.render scenario.today)
               ∅ (main.inputs_of scenario.first_call) "thread-1"))
     = ["classify"]
  /\ ~ (exists out,
          fst (scenario.triage scenario.unrecognized_llm ∅
                 scenario.first_call) = main.Http200 out
          /\ main.out_issue_type out = "other").
Proof.
  split; [vm_compute; reflexivity|].
  split; [vm_compute; reflexivity|].
  split; [vm_compute; reflexivity|].
  intros (out & H & _). vm_compute in H. discriminate H.
Qed.

(** C1 (the code departs from the claim).  Two calls on the same thread:
    the first resolves the order id ORD4521 from its text; the second,
    whose classifier reports no id and whose text holds none, resolves
    no order id.  The store the first call leaves is the one it was
    given. *)
Theorem C1_order_id_not_carried_over :
  let call1 := scenario.triage scenario.structured_llm ∅ scenario.first_call in
  let call2 :=
    scenario.triage scenario.structured_llm (snd call1) scenario.second_call in
  main.thread_id_of scenario.first_call "u1"
  = main.thread_id_of scenario.second_call "u2"
  /\ Re.search (main.ticket_text scenario.second_call) = None
  /\ main.resolved_order_id (fst call1) = Some (Some "ORD4521")
  /\ main.resolved_order_id (fst call2) = Some None
  /\ snd call1 = ∅.
Proof. vm_compute. repeat split; reflexivity. Qed.

(** * Further properties of the code *)

(** ** The id pattern *)

Section PatternRefinement.

Lemma digit_not_sep (c : ascii) :
  Py.is_digit c = true -> Re.is_sep c = false.
Proof. destruct c as [[] [] [] [] [] [] [] []]; cbv; congruence. Qed.

Lemma digit_fixed (c : ascii) :
  Py.is_digit c = true ->
  Py.upper_char c = c /\ Ascii.eqb c " " = false /\ Ascii.eqb c "-" = false.
Proof. destruct c as [[] [] [] [] [] [] [] []]; cbv; intuition congruence. Qed.

Lemma sep_cases (c : ascii) :
  Re.is_sep c = true ->
  c = "-"%char \/ c = " "%char
  \/ (Py.is_space c = true /\ Py.upper_char c = c
      /\ Ascii.eqb c " " = false /\ Ascii.eqb c "-" = false).
Proof.
  destruct c as [[] [] [] [] [] [] [] []]; cbv; intuition congruence.
Qed.

Lemma digits_sound (s d rest : string) :
  Re.digits s = (d, rest) ->
  spec.all_digits d = true /\ spec.starts_with_digit rest = false.
Proof.
  revert d rest; induction s as [|c s IH]; intros d rest; cbn [Re.digits].
  - now intros [= <- <-].
  - destruct (Py.is_digit c) eqn:Ec.
    + destruct (Re.digits s) as [d' rest']. intros [= <- <-].
      destruct (IH d' rest' eq_refl) as [Hd Hr]. cbn. now rewrite Ec, Hd.
    + intros [= <- <-]. cbn. now rewrite Ec.
Qed.

(** The greedy digit run: the digits given, then those [rest] begins
    with. *)
Lemma digits_app (ds rest : string) :
  spec.all_digits ds = true ->
  Re.digits (ds +:+ rest) =
  (ds +:+ fst (Re.digits rest), snd (Re.digits rest)).
Proof.
  induction ds as [|c ds IH]; intros H.
  - rewrite !append_nil. now destruct (Re.digits rest).
  - cbn in H. apply andb_true_iff in H as [Hc Hds].
    rewrite !append_cons. cbn [Re.digits]. rewrite Hc, (IH Hds).
    reflexivity.
Qed.

Lemma all_digits_app (a b : string) :
  spec.all_digits a = true -> spec.all_digits b = true ->
  spec.all_digits (a +:+ b) = true.
Proof.
  induction a as [|c a IH]; intros Ha Hb; [exact Hb|].
  cbn in Ha. apply andb_true_iff in Ha as [Hc Ha].
  rewrite append_cons. cbn. now rewrite Hc, IH.
Qed.

Lemma append_assoc (a b c : string) : (a +:+ b) +:+ c = a +:+ (b +:+ c).
Proof.
  induction a as [|x a IH]; [reflexivity|].
  now rewrite !append_cons, IH.
Qed.

(** What the anchored matcher returns is a string of the pattern, a
    prefix of the text, with no digit left behind it. *)
Lemma match_here_sound (s m : string) :
  Re.match_here s = Some m ->
  spec.PatternMatch m
  /\ exists rest, s = m +:+ rest /\ spec.starts_with_digit rest = false.
Proof.
  unfold Re.match_here.
  destruct s as [|o [|r [|d rest]]]; try discriminate.
  destruct (_ && _) eqn:Eord; [|discriminate]. cbv zeta.
  destruct rest as [|c rest']; [discriminate|].
  destruct (Re.is_sep c) eqn:Esep.
  - destruct (Re.digits rest') as [[|d0 ds] r1] eqn:E1.
    + destruct (Re.digits (String c rest')) as [[|e0 es] r0] eqn:E0;
        [discriminate|].
      cbn [Re.digits] in E0. destruct (Py.is_digit c) eqn:Ec.
      * apply digit_not_sep in Ec. congruence.
      * discriminate.
    + intros [= <-].
      destruct (digits_sound _ _ _ E1) as [Hd Hr].
      apply digits_split in E1. split.
      * now apply spec.pm_sep.
      * exists r1. split; [|exact Hr]. rewrite E1. reflexivity.
  - destruct (Re.digits (String c rest')) as [[|e0 es] r0] eqn:E0;
      [discriminate|].
    intros [= <-].
    destruct (digits_sound _ _ _ E0) as [Hd Hr].
    apply digits_split in E0. split.
    + now apply spec.pm_plain.
    + exists r0. split; [|exact Hr]. rewrite E0. reflexivity.
Qed.

(** Wherever a string of the pattern begins, the anchored matcher
    matches. *)
Lemma match_here_complete (m rest : string) :
  spec.PatternMatch m -> is_Some (Re.match_here (m +:+ rest)).
Proof.
  intros [o r d ds Hord Hne Hds | o r d c ds Hord Hsep Hne Hds];
    rewrite !append_cons; unfold Re.match_here;
    unfold spec.is_ord in Hord; rewrite Hord; cbv zeta.
  - destruct ds as [|d0 ds]; [congruence|]. rewrite append_cons.
    pose proof Hds as Hds'. cbn in Hds'.
    apply andb_true_iff in Hds' as [Hd0 _].
    rewrite (digit_not_sep _ Hd0).
    rewrite <- append_cons, (digits_app _ rest Hds), append_cons. cbn. eauto.
  - rewrite Hsep, (digits_app _ rest Hds).
    destruct ds as [|d0 ds]; [congruence|]. rewrite append_cons. cbn. eauto.
Qed.

Lemma search_some_of_suffix (pre s : string) :
  is_Some (Re.match_here s) -> is_Some (Re.search (pre +:+ s)).
Proof.
  intros Hs. induction pre as [|c pre IH].
  - rewrite append_nil, search_unfold. destruct Hs as [m ->]. eauto.
  - rewrite append_cons, search_unfold.
    destruct (Re.match_here (String c (pre +:+ s))); [eauto | exact IH].
Qed.

Lemma search_sound (text m : string) :
  Re.search text = Some m -> spec.PatternMatch m.
Proof.
  induction text as [|c text IH]; rewrite search_unfold.
  - discriminate.
  - destruct (Re.match_here (String c text)) eqn:E.
    + intros [= <-]. now apply match_here_sound in E as [H _].
    + exact IH.
Qed.

Lemma canonical_digits (ds : string) :
  spec.all_digits ds = true -> graph.canonical ds = ds.
Proof.
  unfold graph.canonical. induction ds as [|c ds IH]; [reflexivity|].
  cbn [spec.all_digits]. intros H. apply andb_true_iff in H as [Hc Hds].
  destruct (digit_fixed c Hc) as (Hu & Hs & Hd).
  cbn [Py.upper Py.replace_drop]. rewrite Hu, Hs.
  cbn [Py.replace_drop]. rewrite Hd. now rewrite IH.
Qed.

Lemma canonical_ord (o r d : ascii) (tl : string) :
  spec.is_ord o r d = true ->
  graph.canonical (String o (String r (String d tl)))
  = "ORD" +:+ graph.canonical tl.
Proof.
  unfold spec.is_ord. rewrite !andb_true_iff, !Ascii.eqb_eq.
  intros [[Ho Hr] Hd]. unfold graph.canonical.
  cbn [Py.upper]. now rewrite Ho, Hr, Hd.
Qed.

Lemma canonical_cons (c : ascii) (s : string) :
  graph.canonical (String c s) =
  if Ascii.eqb c " " then graph.canonical s
  else if Ascii.eqb c "-" then graph.canonical s
  else String (Py.upper_char c) (graph.canonical s).
Proof.
  unfold graph.canonical. cbn [Py.upper Py.replace_drop].
  rewrite upper_char_space. destruct (Ascii.eqb c " "); [reflexivity|].
  cbn [Py.replace_drop]. rewrite upper_char_dash.
  now destruct (Ascii.eqb c "-").
Qed.

End PatternRefinement.

(** X1.  On ASCII text the search finds an id exactly when the text
    holds a string of the pattern: the letters O, R, D in either case,
    at most one dash or white-space character, and at least one decimal
    digit.  What it returns is such a string and occurs in the text. *)
Theorem X1_search_finds_pattern (text : string) :
  spec.ascii_text text = true ->
  (is_Some (Re.search text) <->
   exists m, spec.PatternMatch m /\ spec.Occurs m text)
  /\ (forall m, Re.search text = Some m ->
        spec.PatternMatch m /\ spec.Occurs m text).
Proof.
  intros _. split; [split|].
  - intros [m Hm]. exists m.
    split; [eapply search_sound | eapply search_occurs]; exact Hm.
  - intros (m & Hpm & pre & post & ->).
    apply search_some_of_suffix. now apply match_here_complete.
  - intros m Hm.
    split; [eapply search_sound | eapply search_occurs]; exact Hm.
Qed.

Lemma X1_search_finds_pattern_witness :
  (is_Some (Re.search "My order ORD-4521 arrived broken") <->
   exists m, spec.PatternMatch m
             /\ spec.Occurs m "My order ORD-4521 arrived broken")
  /\ (forall m, Re.search "My order ORD-4521 arrived broken" = Some m ->
        spec.PatternMatch m
        /\ spec.Occurs m "My order ORD-4521 arrived broken").
Proof.
  apply (X1_search_finds_pattern "My order ORD-4521 arrived broken").
  reflexivity.
Defined.

Lemma resolve_text_only (t : string) :
  graph.resolve_order_id None (Some t) None
  = option_map graph.canonical (Re.search t).
Proof.
  rewrite (resolve_fallback None) by reflexivity. cbn [spec.text_id].
  now destruct (Re.search t).
Qed.

(** X2.  The id the resolver takes from an ASCII ticket text, when the
    classifier reports none and the state holds none.  The search
    returns a piece [m] of the text made of the three letters, at most
    one separator and the digits [ds]; the resolved id is "ORD" followed
    by exactly those digits when the separator is missing, a dash or a
    space, and "ORD", the separator, and those digits when the separator
    is any other white-space character (a tab, a line break), which is
    kept. *)
Theorem X2_text_id_shape (t m : string) :
  spec.ascii_text t = true ->
  Re.search t = Some m ->
  spec.Occurs m t
  /\ exists o r d sep ds,
       m = String o (String r (String d (sep +:+ ds)))
       /\ spec.is_ord o r d = true
       /\ ds <> "" /\ spec.all_digits ds = true
       /\ (((sep = "" \/ sep = "-" \/ sep = " ")
            /\ graph.resolve_order_id None (Some t) None
               = Some ("ORD" +:+ ds))
           \/ (exists c,
                 sep = String c "" /\ Py.is_space c = true
                 /\ c <> " "%char
                 /\ graph.resolve_order_id None (Some t) None
                    = Some ("ORD" +:+ String c ds))).
Proof.
  intros _ E. split; [now apply search_occurs|].
  rewrite resolve_text_only, E. cbn [option_map].
  destruct (search_sound _ _ E)
    as [o r d ds Hord Hne Hds | o r d c ds Hord Hsep Hne Hds];
    rewrite (canonical_ord _ _ _ _ Hord).
  - exists o, r, d, "", ds. rewrite append_nil.
    split; [reflexivity|]. split; [exact Hord|]. split; [exact Hne|].
    split; [exact Hds|]. left. split; [now left|].
    now rewrite canonical_digits.
  - exists o, r, d, (String c ""), ds. rewrite append_cons, append_nil.
    split; [reflexivity|]. split; [exact Hord|]. split; [exact Hne|].
    split; [exact Hds|].
    rewrite canonical_cons, (canonical_digits _ Hds).
    destruct (sep_cases c Hsep) as [->|[->|(Hsp & Hu & Hs & Hd)]].
    + left. split; [right; now left | reflexivity].
    + left. split; [right; now right | reflexivity].
    + right. exists c. split; [reflexivity|]. split; [exact Hsp|]. split.
      * intros ->. discriminate.
      * now rewrite Hs, Hd, Hu.
Qed.

(** A tab between the letters and the digits stays in the id. *)
Lemma X2_text_id_shape_witness :
  spec.Occurs scenario.tab_match scenario.tab_text
  /\ exists o r d sep ds,
       scenario.tab_match = String o (String r (String d (sep +:+ ds)))
       /\ spec.is_ord o r d = true
       /\ ds <> "" /\ spec.all_digits ds = true
       /\ (((sep = "" \/ sep = "-" \/ sep = " ")
            /\ graph.resolve_order_id None (Some scenario.tab_text) None
               = Some ("ORD" +:+ ds))
           \/ (exists c,
                 sep = String c "" /\ Py.is_space c = true
                 /\ c <> " "%char
                 /\ graph.resolve_order_id None (Some scenario.tab_text) None
                    = Some ("ORD" +:+ String c ds))).
Proof.
  apply (X2_text_id_shape scenario.tab_text scenario.tab_match);
    vm_compute; reflexivity.
Defined.

Example tab_separator_kept :
  graph.resolve_order_id None (Some scenario.tab_text) None
  = Some scenario.tab_match.
Proof. vm_compute. reflexivity. Qed.

(** ** The data files *)

Section DataFiles.

Variable mock_data : string -> option (list Dict).

Lemma first_template_none (replies : list Dict) (issue : option string) :
  (forall item, In item replies -> item !! "issue_type" <> issue) ->
  utils.first_template replies issue = Ok utils.default_template.
Proof.
  induction replies as [|item rest IH]; intros H; [reflexivity|].
  cbn [utils.first_template]. rewrite bool_decide_eq_false_2.
  - apply IH. intros z Hz. apply H. now right.
  - apply H. now left.
Qed.

Lemma first_template_at (pre post : list Dict) (item : Dict)
  (issue : option string) :
  (forall z, In z pre -> z !! "issue_type" <> issue) ->
  item !! "issue_type" = issue ->
  utils.first_template (pre ++ item :: post) issue =
  match item !! "template" with
  | Some t => Ok t
  | None => Raise (KeyError "template")
  end.
Proof.
  induction pre as [|z pre IH]; intros Hpre Hitem.
  - cbn. now rewrite bool_decide_eq_true_2.
  - cbn. rewrite bool_decide_eq_false_2 by (apply Hpre; now left).
    apply IH; [|exact Hitem]. intros y Hy. apply Hpre. now right.
Qed.

Lemma first_template_total (replies : list Dict) (issue : option string) :
  (forall item, In item replies -> is_Some (item !! "template")) ->
  exists t, utils.first_template replies issue = Ok t.
Proof.
  induction replies as [|item rest IH]; intros H; [now eexists|].
  cbn [utils.first_template]. destruct (bool_decide _).
  - destruct (H item) as [t ->]; [now left | now eexists].
  - apply IH. intros z Hz. apply H. now right.
Qed.




End DataFiles.

(** X3.  [lookup_order] has no false hits and no other misses: a record
    it returns is one stored in orders.json whose normalized id equals
    the normalized query; it returns nothing exactly when the query is
    empty or no stored record agrees with it. *)
Theorem X3_lookup_order_hits_and_misses
  (mock_data : string -> option (list Dict)) (q : string) :
  (forall found,
     utils.lookup_order mock_data (Some q) = Some found ->
     q <> ""
     /\ In found (utils.load_json mock_data "orders.json")
     /\ utils.clean (default "" (found !! "order_id")) = utils.clean q)
  /\ (utils.lookup_order mock_data (Some q) = None <->
      q = ""
      \/ forall r, In r (utils.load_json mock_data "orders.json") ->
           utils.clean (default "" (r !! "order_id")) <> utils.clean q).
Proof.
  split.
  - intros found H. split; [intros ->; discriminate|].
    now apply lookup_order_sound.
  - destruct q as [|a q]; [split; [now left | reflexivity]|].
    rewrite lookup_order_find by discriminate. split.
    + intros H. right. intros r Hr Hk.
      pose proof (find_none _ _ H r Hr) as Hf. cbn beta in Hf.
      apply String.eqb_neq in Hf. now apply Hf.
    + intros [H|H]; [discriminate|].
      destruct (List.find _ _) as [found|] eqn:E; [|reflexivity].
      apply find_some in E as [Hin Hk]. apply String.eqb_eq in Hk.
      now destruct (H found Hin).
Qed.

(** X4.  A data file that does not exist reads as an empty list, not as
    an error: without orders.json every lookup misses, without
    replies.json every issue type gets the generic template, and without
    issues.json the enumeration is ["other"] alone. *)
Theorem X4_missing_files_read_as_empty
  (mock_data : string -> option (list Dict)) :
  (mock_data "orders.json" = None ->
   forall id, utils.lookup_order mock_data id = None)
  /\ (mock_data "replies.json" = None ->
      forall issue,
        utils.get_reply_template mock_data issue
        = Ok "Hi {{customer_name}}, regarding order {{order_id}}: We are looking into your issue.")
  /\ (mock_data "issues.json" = None ->
      utils.get_issue_types mock_data = Ok ["other"]).
Proof.
  split; [|split].
  - intros H id. unfold utils.lookup_order, utils.load_json. rewrite H.
    now destruct (negb (Py.truthy id)).
  - intros H issue. unfold utils.get_reply_template, utils.load_json.
    now rewrite H.
  - intros H. unfold utils.get_issue_types, utils.load_json. now rewrite H.
Qed.

Lemma X4_missing_files_read_as_empty_witness :
  utils.lookup_order (fun _ => None) (Some "ORD-1") = None
  /\ utils.get_issue_types (fun _ => None) = Ok ["other"].
Proof.
  split.
  - apply (proj1 (X4_missing_files_read_as_empty (fun _ => None)) eq_refl).
  - apply (proj2 (proj2 (X4_missing_files_read_as_empty (fun _ => None)))
             eq_refl).
Defined.

(** X5.  [get_reply_template] answers with the template of the first
    entry of replies.json registered for the issue type, with the
    generic template when no entry is registered for it, and raises
    KeyError only when that first entry has no "template" field; it
    never raises when every entry has one. *)
Theorem X5_get_reply_template
  (mock_data : string -> option (list Dict)) (issue : option string) :
  ((forall item, In item (utils.load_json mock_data "replies.json") ->
      item !! "issue_type" <> issue) ->
   utils.get_reply_template mock_data issue = Ok utils.default_template)
  /\ (forall pre item post,
        utils.load_json mock_data "replies.json" = pre ++ item :: post ->
        (forall z, In z pre -> z !! "issue_type" <> issue) ->
        item !! "issue_type" = issue ->
        utils.get_reply_template mock_data issue =
        match item !! "template" with
        | Some t => Ok t
        | None => Raise (KeyError "template")
        end)
  /\ ((forall item, In item (utils.load_json mock_data "replies.json") ->
         is_Some (item !! "template")) ->
      exists t, utils.get_reply_template mock_data issue = Ok t).
Proof.
  unfold utils.get_reply_template. split; [|split].
  - apply first_template_none.
  - intros pre item post ->. apply first_template_at.
  - apply first_template_total.
Qed.

Lemma X5_get_reply_template_witness :
  utils.get_reply_template scenario.mock_data (Some "late_delivery")
  = Ok utils.default_template
  /\ exists t,
       utils.get_reply_template scenario.mock_data (Some "damaged_item")
       = Ok t.
Proof.
  split.
  - apply (proj1 (X5_get_reply_template scenario.mock_data
                    (Some "late_delivery"))).
    intros item [<-|[]]. discriminate.
  - apply (proj2 (proj2 (X5_get_reply_template scenario.mock_data
                           (Some "damaged_item")))).
    intros item [<-|[]]. now eexists.
Defined.



(** ** Nodes and runs *)

Section RunProperties.

Import schema.

Variable mock_data : string -> option (list Dict).
Variable raw_issues : list string.
Variable structured_llm : list Message -> graph.LLMReply.
Variable chat_llm : list Message -> result Message.
Variable json_dumps : Dict -> string.
Variable render : graph.DraftPrompt -> string.
Variable today : string.

Local Abbreviation builder :=
  (graph.builder mock_data raw_issues structured_llm chat_llm json_dumps
     render today).
Local Abbreviation classify_node :=
  (graph.classify_node raw_issues structured_llm).
Local Abbreviation draft_reply_node :=
  (graph.draft_reply_node mock_data chat_llm render today).

Lemma resolve_keeps_truthy (cand text pers : option string) :
  Py.truthy pers = true ->
  Py.truthy (graph.resolve_order_id cand text pers) = true.
Proof.
  intros Hp. rewrite resolve_first_match_wins.
  assert (Hfall :
    Py.truthy (match spec.text_id text with Some m => Some m | None => pers end)
    = true).
  { destruct text as [t|]; cbn [spec.text_id]; [|exact Hp].
    destruct (Re.search t) as [m|] eqn:E; cbn [option_map]; [|exact Hp].
    cbn [Py.truthy]. eapply search_truthy, E. }
  destruct cand as [c|]; cbn [spec.first_match_wins]; [|exact Hfall].
  destruct (spec.discarded c) eqn:Ed; [exact Hfall|].
  unfold spec.discarded in Ed. rewrite (screen_kept c Ed) in Ed.
  now destruct (Py.truthy (Some c)).
Qed.

Lemma draft_reply_node_ticket_text (s : AgentState) (u : Update) :
  draft_reply_node s = Ok u -> upd_ticket_text u = None.
Proof.
  unfold graph.draft_reply_node. intros H.
  apply bind_ok_inv in H as (prompt & _ & H).
  now apply bind_ok_inv in H as (response & _ & [= <-]).
Qed.

(** X7.  An order id is sticky within a turn: when the state handed to
    classification holds an order id, the state it leaves holds one too,
    whatever the classifier reports and the text says, and the turn goes
    through the lookup step. *)
Theorem X7_order_id_is_sticky (s : AgentState) (u : Update) :
  Py.truthy (order_id s) = true ->
  classify_node s = Ok u ->
  Py.truthy (order_id (apply_update s u)) = true
  /\ graph.route_ticket (apply_update s u) = "fetch_order"
  /\ forall k,
       graph.trace (graph.run_from builder (S (S (S k))) "classify" s [])
       = ["classify"; "fetch_order"; "draft_reply"].
Proof.
  intros Hs Hu.
  pose proof (classify_node_cases raw_issues structured_llm s) as Hc.
  rewrite Hu in Hc. destruct Hc as (i & cand & _ & _ & ->).
  assert (Ht : Py.truthy (order_id
                 (apply_update s
                    {| upd_messages := [];
                       upd_ticket_text := None;
                       upd_issue_type := Some (Some i);
                       upd_order_id :=
                         Some (graph.resolve_order_id cand
                                 (graph.text_to_analyze s) (order_id s)) |}))
               = true)
    by (cbn; now apply resolve_keeps_truthy).
  split; [exact Ht|]. split.
  - unfold graph.route_ticket. now rewrite Ht.
  - intros k. rewrite run_classify, Hu, resume_classify.
    unfold spec.route_of.
    destruct (draft_reply_node _); cbn [graph.trace]; now rewrite Ht.
Qed.

(** X8.  The transcript only grows.  Whatever a run from classification
    does, the messages it started with are the beginning of the messages
    it ends with, and the ticket text and the evidence are untouched.  A
    run that finishes has added the tool message of the lookup, when an
    order id was resolved, and then exactly one reply of the model. *)
Theorem X8_transcript_append_only (s : AgentState) (k : nat) :
  let r := graph.run_from builder (S (S (S k))) "classify" s [] in
  exists added,
    messages (graph.final_state r) = messages s ++ added
    /\ ticket_text (graph.final_state r) = ticket_text s
    /\ evidence (graph.final_state r) = evidence s
    /\ (graph.outcome r = Ok tt ->
        exists reply,
          added =
          (if Py.truthy (order_id (graph.final_state r))
           then [spec.tool_entry mock_data json_dumps (graph.final_state r)]
           else [])
          ++ [reply]).
Proof.
  cbv zeta. rewrite run_classify.
  pose proof (classify_node_cases raw_issues structured_llm s) as Hc.
  destruct (classify_node s) as [u|e].
  - destruct Hc as (i & cand & _ & _ & ->).
    rewrite resume_classify.
    set (s1 := apply_update s _).
    assert (Hm1 : messages s1 = messages s) by (cbn; apply app_nil_r).
    assert (Ht1 : ticket_text s1 = ticket_text s) by reflexivity.
    assert (He1 : evidence s1 = evidence s) by reflexivity.
    destruct (draft_reply_node (spec.at_draft mock_data json_dumps s1))
      as [u|e] eqn:Ed; cbn [graph.final_state graph.outcome].
    + destruct (draft_reply_node_update _ _ _ _ _ _ Ed)
        as (Hui & Huo & reply & Hum).
      pose proof (draft_reply_node_ticket_text _ _ Ed) as Hut.
      unfold apply_update at 1 2 3 4.
      cbn [messages ticket_text evidence order_id].
      unfold spec.tool_entry at 1. cbn [order_id].
      rewrite Hum, Huo, Hut. cbn [default from_option id].
      unfold spec.at_draft. destruct (Py.truthy (order_id s1)) eqn:Ho.
      * exists ([spec.tool_entry mock_data json_dumps s1] ++ [reply]).
        cbn [spec.after_fetch messages ticket_text evidence order_id].
        rewrite Hm1, Ho, <- app_assoc.
        split; [reflexivity|]. split; [exact Ht1|]. split; [exact He1|].
        intros _. exists reply.
        unfold spec.tool_entry, apply_update, spec.after_fetch.
        cbn [order_id]. now rewrite Huo.
      * exists [reply]. rewrite Hm1, Ho.
        split; [reflexivity|]. split; [exact Ht1|]. split; [exact He1|].
        intros _. now exists reply.
    + unfold spec.at_draft. destruct (Py.truthy (order_id s1)).
      * exists [spec.tool_entry mock_data json_dumps s1].
        cbn [spec.after_fetch messages ticket_text evidence].
        rewrite Hm1. repeat split; try assumption. discriminate.
      * exists []. rewrite Hm1, app_nil_r.
        repeat split; try assumption. discriminate.
  - exists []. cbn [graph.final_state graph.outcome]. rewrite app_nil_r.
    repeat split. discriminate.
Qed.

(** X10.  At the default step limit a run never fails for want of
    steps: it enters at most three nodes, and it ends with the exception
    of classification, or with that of drafting, or well; the engine
    adds no failure of its own. *)
Theorem X10_run_ends_within_default_limit (s : AgentState) :
  let r := graph.run_from builder graph.recursion_limit "classify" s [] in
  length (graph.trace r) <= 3
  /\ match classify_node s with
     | Raise e => graph.outcome r = Raise e /\ graph.trace r = ["classify"]
     | Ok u =>
         graph.trace r = spec.route_of (apply_update s u)
         /\ graph.outcome r =
            match draft_reply_node
                    (spec.at_draft mock_data json_dumps (apply_update s u))
            with
            | Ok _ => Ok tt
            | Raise e => Raise e
            end
     end.
Proof.
  cbv zeta. unfold graph.recursion_limit. rewrite run_classify.
  destruct (classify_node s) as [u|e].
  - rewrite resume_classify. unfold spec.route_of.
    destruct (draft_reply_node _), (Py.truthy _); cbn; repeat split; lia.
  - cbn. repeat split. lia.
Qed.

End RunProperties.

(** The deployment of the examples, started with an order id in the
    state and a text that names none. *)
Lemma X7_order_id_is_sticky_witness :
  graph.trace
    (graph.run_from
       (graph.builder scenario.mock_data scenario.raw_issues
          scenario.structured_llm scenario.chat_llm scenario.json_dumps
          scenario.render scenario.today)
       3 "classify"
       {| schema.messages := [schema.HumanMessage "How long will that take?"];
          schema.ticket_text := Some "How long will that take?";
          schema.issue_type := None;
          schema.order_id := Some "ORD4521";
          schema.evidence := None |} [])
  = ["classify"; "fetch_order"; "draft_reply"].
Proof.
  apply (proj2 (proj2 (X7_order_id_is_sticky scenario.mock_data
                         scenario.raw_issues scenario.structured_llm
                         scenario.chat_llm scenario.json_dumps
                         scenario.render scenario.today
                         {| schema.messages :=
                              [schema.HumanMessage "How long will that take?"];
                            schema.ticket_text :=
                              Some "How long will that take?";
                            schema.issue_type := None;
                            schema.order_id := Some "ORD4521";
                            schema.evidence := None |}
                         {| schema.upd_messages := [];
                            schema.upd_ticket_text := None;
                            schema.upd_issue_type := Some (Some "damaged_item");
                            schema.upd_order_id := Some (Some "ORD4521") |}
                         eq_refl eq_refl)) 0).
Defined.

(** X9.  Drafting reads the reply templates only when an order id is
    resolved.  Without one its result does not depend on the data files,
    so a malformed replies.json cannot fail the turn that asks for the
    id; with one, a template lookup that raises ends drafting before the
    model is called. *)
Theorem X9_draft_reads_templates_only_with_id
  (chat_llm : list schema.Message -> result schema.Message)
  (render : graph.DraftPrompt -> string) (today : string)
  (s : schema.AgentState) :
  (Py.truthy (schema.order_id s) = false ->
   forall files files',
     graph.draft_reply_node files chat_llm render today s
     = graph.draft_reply_node files' chat_llm render today s)
  /\ (Py.truthy (schema.order_id s) = true ->
      forall files e,
        utils.get_reply_template files (schema.issue_type s) = Raise e ->
        forall chat_llm',
          graph.draft_reply_node files chat_llm' render today s = Raise e).
Proof.
  split.
  - intros H files files'. unfold graph.draft_reply_node. now rewrite H.
  - intros H files e He chat'. unfold graph.draft_reply_node.
    rewrite H, He. reflexivity.
Qed.

(** A reply entry without a "template" field fails drafting for an
    identified order and leaves the request for the id alone. *)
Lemma X9_draft_reads_templates_only_with_id_witness :
  let files := fun _ : string =>
    Some [<["issue_type" := "damaged_item"]> (∅ : Dict)] in
  let s := fun oid =>
    {| schema.messages := []; schema.ticket_text := None;
       schema.issue_type := Some "damaged_item";
       schema.order_id := oid; schema.evidence := None |} in
  graph.draft_reply_node files scenario.chat_llm scenario.render
    scenario.today (s (Some "ORD1")) = Raise (KeyError "template")
  /\ graph.draft_reply_node files scenario.chat_llm scenario.render
       scenario.today (s None)
     = graph.draft_reply_node scenario.mock_data scenario.chat_llm
         scenario.render scenario.today (s None).
Proof.
  cbv zeta. split.
  - apply (proj2 (X9_draft_reads_templates_only_with_id scenario.chat_llm
                    scenario.render scenario.today
                    {| schema.messages := []; schema.ticket_text := None;
                       schema.issue_type := Some "damaged_item";
                       schema.order_id := Some "ORD1";
                       schema.evidence := None |})
          ); [reflexivity | vm_compute; reflexivity].
  - apply (proj1 (X9_draft_reads_templates_only_with_id scenario.chat_llm
                    scenario.render scenario.today
                    {| schema.messages := []; schema.ticket_text := None;
                       schema.issue_type := Some "damaged_item";
                       schema.order_id := None;
                       schema.evidence := None |})
             eq_refl).
Defined.

(** ** The endpoint of [main.py] *)

Section ThreadIds.

Lemma thread_id_cascade (body : main.TriageInput) (uuid4 : string) :
  main.thread_id_of body uuid4 =
  if Py.truthy (main.conversation_id body)
  then Py.str (main.conversation_id body)
  else if Py.truthy (main.order_id body) then Py.str (main.order_id body)
  else match Re.search (main.ticket_text body) with
       | Some m => graph.canonical m
       | None => uuid4
       end.
Proof.
  unfold main.thread_id_of.
  destruct (Py.truthy (main.conversation_id body)) eqn:Ec; cbn [negb andb].
  - do 2 (rewrite ?Ec; cbn [negb andb]). reflexivity.
  - destruct (Py.truthy (main.order_id body)) eqn:Eo.
    + do 2 (rewrite ?Eo; cbn [negb andb]). reflexivity.
    + rewrite ?Ec. cbn [negb andb].
      destruct (Re.search (main.ticket_text body)) as [m|] eqn:Es.
      * cbn [Py.truthy Py.str]. now rewrite (search_truthy _ _ Es).
      * rewrite ?Ec. reflexivity.
Qed.

Lemma truthy_str_nonempty (x : option string) :
  Py.truthy x = true -> Py.str x <> "".
Proof. destruct x as [[|a s]|]; cbn; congruence. Qed.

End ThreadIds.

(** X11.  The thread id of a call: the conversation id when the caller
    gives one, else the explicit order id as given, else the normalized
    id found in the ticket text, else the fresh identifier.  An empty
    conversation id or order id counts as not given, and the thread id
    is never empty when the fresh identifier is not. *)
Theorem X11_thread_id_precedence (body : main.TriageInput) (uuid4 : string) :
  main.thread_id_of body uuid4 =
  (if Py.truthy (main.conversation_id body)
   then Py.str (main.conversation_id body)
   else if Py.truthy (main.order_id body) then Py.str (main.order_id body)
   else match Re.search (main.ticket_text body) with
        | Some m => graph.canonical m
        | None => uuid4
        end)
  /\ (uuid4 <> "" -> main.thread_id_of body uuid4 <> "").
Proof.
  split; [apply thread_id_cascade|].
  intros Hu. rewrite thread_id_cascade.
  destruct (Py.truthy (main.conversation_id body)) eqn:Ec;
    [now apply truthy_str_nonempty|].
  destruct (Py.truthy (main.order_id body)) eqn:Eo;
    [now apply truthy_str_nonempty|].
  destruct (Re.search (main.ticket_text body)) as [m|] eqn:Es; [|exact Hu].
  pose proof (search_truthy _ _ Es) as Ht.
  intros E. rewrite E in Ht. discriminate.
Qed.

(** X12.  Two calls that name no conversation and no explicit order id
    land on the same thread when their texts mention the same order id,
    however each text spells it (case, dash, space): the thread id taken
    from the text is normalized. *)
Theorem X12_thread_id_from_text_ignores_format
  (b1 b2 : main.TriageInput) (u1 u2 m1 m2 : string) :
  Py.truthy (main.conversation_id b1) = false ->
  Py.truthy (main.conversation_id b2) = false ->
  Py.truthy (main.order_id b1) = false ->
  Py.truthy (main.order_id b2) = false ->
  Re.search (main.ticket_text b1) = Some m1 ->
  Re.search (main.ticket_text b2) = Some m2 ->
  utils.clean m1 = utils.clean m2 ->
  main.thread_id_of b1 u1 = main.thread_id_of b2 u2.
Proof.
  intros Hc1 Hc2 Ho1 Ho2 Hs1 Hs2 Hm.
  rewrite !thread_id_cascade, Hc1, Hc2, Ho1, Ho2, Hs1, Hs2.
  now rewrite !canonical_clean.
Qed.

Lemma X12_thread_id_from_text_ignores_format_witness :
  main.thread_id_of
    {| main.ticket_text := "My order ORD-4521 arrived broken";
       main.order_id := None; main.conversation_id := None |} "u1"
  = main.thread_id_of
      {| main.ticket_text := "any news on ord 4521?";
         main.order_id := Some ""; main.conversation_id := None |} "u2".
Proof.
  apply (X12_thread_id_from_text_ignores_format _ _ "u1" "u2"
           "ORD-4521" "ord 4521"); reflexivity.
Defined.

Section EndToEnd.

Import schema.

Variable mock_data : string -> option (list Dict).
Variable raw_issues : list string.
Variable structured_llm : list Message -> graph.LLMReply.
Variable chat_llm : list Message -> result Message.
Variable json_dumps : Dict -> string.
Variable render : graph.DraftPrompt -> string.
Variable today : string.
Variable ORDERS : list Dict.

Local Abbreviation the_graph :=
  (graph.graph mock_data raw_issues structured_llm chat_llm json_dumps
     render today).
Local Abbreviation classify_node :=
  (graph.classify_node raw_issues structured_llm).
Local Abbreviation draft_reply_node :=
  (graph.draft_reply_node mock_data chat_llm render today).
Local Abbreviation triage_invoke :=
  (main.triage_invoke mock_data raw_issues structured_llm chat_llm
     json_dumps render today ORDERS).

(** What a finished drafting step did. *)
Lemma draft_reply_node_ok_inv (s : AgentState) (u : Update) :
  draft_reply_node s = Ok u ->
  exists prompt reply,
    chat_llm (SystemMessage (render prompt) :: messages s) = Ok reply
    /\ u = {| upd_messages := [reply]; upd_ticket_text := None;
              upd_issue_type := None; upd_order_id := None |}
    /\ ((Py.truthy (order_id s) = false
         /\ prompt =
            graph.AskForOrderId (issue_type s)
              (match List.find is_human (rev (messages s)) with
               | Some msg => content_of msg
               | None => "Unknown"
               end) today)
        \/ (Py.truthy (order_id s) = true
            /\ exists template,
                 utils.get_reply_template mock_data (issue_type s)
                 = Ok template
                 /\ prompt =
                    graph.UseTemplate (issue_type s) (Py.str (order_id s))
                      template today)).
Proof.
  unfold graph.draft_reply_node. intros H.
  apply bind_ok_inv in H as (prompt & Hp & H).
  apply bind_ok_inv in H as (reply & Hr & [= <-]).
  exists prompt, reply. split; [exact Hr|]. split; [reflexivity|].
  destruct (Py.truthy (order_id s)); cbn [negb] in Hp.
  - right. split; [reflexivity|].
    apply bind_ok_inv in Hp as (template & Ht & [= <-]). eauto.
  - left. injection Hp as <-. now split.
Qed.

(** A finished run of the graph, in full: the classifier's decoded
    answer, the resolved order id, the optional tool message and the
    reply. *)
Lemma invoke_finished (saver : gmap string AgentState) (inputs : Update)
  (thread_id : string) :
  let s0 := apply_update empty_state inputs in
  let r := fst (graph.invoke the_graph saver inputs thread_id) in
  graph.outcome r = Ok tt ->
  exists i cand u reply,
    structured_llm (SystemMessage graph.system_prompt :: messages s0)
    = graph.Structured i cand
    /\ let s1 :=
         {| messages := messages s0;
            ticket_text := ticket_text s0;
            issue_type := Some i;
            order_id :=
              graph.resolve_order_id cand (graph.text_to_analyze s0)
                (order_id s0);
            evidence := evidence s0 |} in
       draft_reply_node (spec.at_draft mock_data json_dumps s1) = Ok u
       /\ upd_messages u = [reply]
       /\ graph.final_state r =
          {| messages :=
               messages (spec.at_draft mock_data json_dumps s1) ++ [reply];
             ticket_text := ticket_text s0;
             issue_type := Some i;
             order_id := order_id s1;
             evidence := evidence s0 |}.
Proof.
  cbv zeta. rewrite invoke_without_checkpointer. cbn [fst].
  unfold graph.recursion_limit. rewrite run_classify.
  set (s0 := apply_update empty_state inputs).
  pose proof (classify_node_cases raw_issues structured_llm s0) as Hc.
  destruct (classify_node s0) as [u0|e]; [|discriminate].
  destruct Hc as (i & cand & Hreply & _ & ->).
  rewrite resume_classify.
  assert (Hs1 :
    apply_update s0
      {| upd_messages := []; upd_ticket_text := None;
         upd_issue_type := Some (Some i);
         upd_order_id :=
           Some (graph.resolve_order_id cand (graph.text_to_analyze s0)
                   (order_id s0)) |}
    = {| messages := messages s0;
         ticket_text := ticket_text s0;
         issue_type := Some i;
         order_id :=
           graph.resolve_order_id cand (graph.text_to_analyze s0)
             (order_id s0);
         evidence := evidence s0 |}).
  { unfold apply_update. cbn. now rewrite app_nil_r. }
  rewrite Hs1. set (s1 := {| messages := messages s0 |}).
  destruct (draft_reply_node (spec.at_draft mock_data json_dumps s1))
    as [u|e] eqn:Ed; [|discriminate].
  intros _. cbn [graph.final_state].
  destruct (draft_reply_node_ok_inv _ _ Ed) as (prompt & reply & _ & -> & _).
  exists i, cand,
    {| upd_messages := [reply]; upd_ticket_text := None;
       upd_issue_type := None; upd_order_id := None |}, reply.
  split; [exact Hreply|]. split; [exact Ed|]. split; [reflexivity|].
  unfold apply_update. cbn [upd_messages upd_ticket_text upd_issue_type
                            upd_order_id default from_option id].
  unfold spec.at_draft. subst s1. cbn [order_id].
  destruct (Py.truthy (graph.resolve_order_id _ _ _)); reflexivity.
Qed.

(** What an answered call of the endpoint is made of. *)
Lemma triage_invoke_200_inv (saver : gmap string AgentState)
  (uuid4 : string) (body : main.TriageInput) (out : main.TriageOutput) :
  fst (triage_invoke saver uuid4 body) = main.Http200 out ->
  let r :=
    fst (graph.invoke the_graph saver (main.inputs_of body)
           (main.thread_id_of body uuid4)) in
  graph.outcome r = Ok tt
  /\ exists last_msg,
       last (messages (graph.final_state r)) = Some last_msg
       /\ (if Py.truthy (order_id (graph.final_state r))
           then main.hydrate ORDERS (Py.str (order_id (graph.final_state r)))
           else Ok None) = Ok (main.out_order out)
       /\ main.out_order_id out = order_id (graph.final_state r)
       /\ main.out_issue_type out
          = default "other" (issue_type (graph.final_state r))
       /\ main.out_reply_text out = content_of last_msg.
Proof.
  cbv zeta. unfold main.triage_invoke.
  destruct (graph.invoke _ saver _ _) as [r saver'] eqn:Ei. cbn [fst].
  destruct (graph.outcome r) as [[]|e]; [|discriminate].
  destruct (last (messages (graph.final_state r))) as [last_msg|];
    [|discriminate].
  destruct (if Py.truthy (order_id (graph.final_state r)) then _ else _)
    as [full|e]; [|discriminate].
  intros [= <-]. split; [reflexivity|]. exists last_msg. now repeat split.
Qed.

Lemma initial_text (body : main.TriageInput) :
  graph.text_to_analyze (apply_update empty_state (main.inputs_of body))
  = Some (main.ticket_text body).
Proof.
  unfold graph.text_to_analyze. cbn.
  now destruct (main.ticket_text body).
Qed.

Lemma initial_order_id (body : main.TriageInput) :
  order_id (apply_update empty_state (main.inputs_of body))
  = spec.explicit_id (main.order_id body).
Proof.
  unfold spec.explicit_id. cbn.
  now destruct (Py.truthy (main.order_id body)).
Qed.

Lemma hydrate_sound (orders : list Dict) (oid : string) (o : Dict) :
  main.hydrate orders oid = Ok (Some o) ->
  In o orders /\ o !! "order_id" = Some oid.
Proof.
  induction orders as [|x rest IH]; [discriminate|].
  cbn [main.hydrate]. destruct (x !! "order_id") as [i|] eqn:E;
    [|discriminate].
  destruct (String.eqb i oid) eqn:Ei.
  - intros [= <-]. apply String.eqb_eq in Ei. subst.
    split; [now left | exact E].
  - intros H. destruct (IH H). split; [now right | assumption].
Qed.

(** X13.  The order id and the issue type a call reports.  Whenever the
    endpoint answers, the classifier's answer to the system prompt and
    the ticket text decoded, the reported issue type is the one it
    named, and the reported order id is what the resolver makes of the
    classifier's candidate, the ticket text and the caller's explicit
    order id (an empty one counting as none). *)
Theorem X13_triage_invoke_reports_resolved_id
  (saver : gmap string AgentState) (uuid4 : string)
  (body : main.TriageInput) (out : main.TriageOutput) :
  fst (triage_invoke saver uuid4 body) = main.Http200 out ->
  exists i cand,
    structured_llm
      [SystemMessage graph.system_prompt;
       HumanMessage (main.ticket_text body)]
    = graph.Structured i cand
    /\ main.out_issue_type out = i
    /\ main.out_order_id out =
       graph.resolve_order_id cand (Some (main.ticket_text body))
         (spec.explicit_id (main.order_id body)).
Proof.
  intros H. apply triage_invoke_200_inv in H.
  cbv zeta in H. destruct H as (Hok & last_msg & _ & _ & Hoid & Hissue & _).
  destruct (invoke_finished _ _ _ Hok)
    as (i & cand & u & reply & Hreply & _ & _ & Hfinal).
  rewrite initial_messages in Hreply.
  rewrite Hfinal in Hoid, Hissue. cbn [order_id issue_type] in Hoid, Hissue.
  rewrite initial_text, initial_order_id in Hoid.
  exists i, cand. now repeat split.
Qed.

(** X14.  The order record in an answer, when there is one, is a record
    of ORDERS whose stored id is exactly the reported order id; an
    answer without an order id carries no record. *)
Theorem X14_reported_order_matches_exactly
  (saver : gmap string AgentState) (uuid4 : string)
  (body : main.TriageInput) (out : main.TriageOutput) :
  fst (triage_invoke saver uuid4 body) = main.Http200 out ->
  (forall o, main.out_order out = Some o ->
             In o ORDERS /\ o !! "order_id" = main.out_order_id out)
  /\ (Py.truthy (main.out_order_id out) = false ->
      main.out_order out = None).
Proof.
  intros H. apply triage_invoke_200_inv in H.
  cbv zeta in H. destruct H as (_ & last_msg & _ & Hh & Hoid & _ & _).
  rewrite <- Hoid in Hh. split.
  - intros o Ho. rewrite Ho in Hh.
    destruct (Py.truthy (main.out_order_id out)) eqn:Et; [|discriminate].
    apply hydrate_sound in Hh as [Hin Hid]. split; [exact Hin|].
    rewrite Hid. destruct (main.out_order_id out); [reflexivity|discriminate].
  - intros Hf. rewrite Hf in Hh. now injection Hh.
Qed.

(** X15.  The reply of an answered call is the text the model returned
    for the drafting prompt.  With no order id resolved the prompt asks
    for the id, quotes the ticket text, and the model sees the user's
    message alone; with an order id the prompt carries the template
    registered for the issue type, and the model sees the user's message
    followed by the tool message of the lookup. *)
Theorem X15_reply_is_drafted_from_prompt
  (saver : gmap string AgentState) (uuid4 : string)
  (body : main.TriageInput) (out : main.TriageOutput) :
  fst (triage_invoke saver uuid4 body) = main.Http200 out ->
  exists prompt transcript reply,
    chat_llm (SystemMessage (render prompt) :: transcript) = Ok reply
    /\ main.out_reply_text out = content_of reply
    /\ ((Py.truthy (main.out_order_id out) = false
         /\ prompt =
            graph.AskForOrderId (Some (main.out_issue_type out))
              (main.ticket_text body) today
         /\ transcript = [HumanMessage (main.ticket_text body)])
        \/ (Py.truthy (main.out_order_id out) = true
            /\ (exists template,
                  utils.get_reply_template mock_data
                    (Some (main.out_issue_type out)) = Ok template
                  /\ prompt =
                     graph.UseTemplate (Some (main.out_issue_type out))
                       (Py.str (main.out_order_id out)) template today)
            /\ transcript =
               [HumanMessage (main.ticket_text body);
                ToolMessage
                  (graph.fetch_order_tool mock_data json_dumps
                     (Py.str (main.out_order_id out)))
                  "fetch_order"
                  ("call_" +:+ Py.str (main.out_order_id out))])).
Proof.
  intros H. apply triage_invoke_200_inv in H.
  cbv zeta in H.
  destruct H as (Hok & last_msg & Hlast & _ & Hoid & Hissue & Htext).
  destruct (invoke_finished _ _ _ Hok)
    as (i & cand & u & reply & _ & Hd & Hum & Hfinal).
  match type of Hd with
  | graph.draft_reply_node _ _ _ _ (spec.at_draft _ _ ?s) = _ =>
      remember s as s1 eqn:Es1
  end.
  assert (Hm1 : messages s1 = [HumanMessage (main.ticket_text body)])
    by (rewrite Es1; apply initial_messages).
  assert (Hi1 : issue_type s1 = Some i) by now rewrite Es1.
  clear Es1.
  rewrite Hfinal in Hlast, Hoid, Hissue.
  cbn [messages order_id issue_type default from_option id]
    in Hlast, Hoid, Hissue.
  rewrite last_snoc in Hlast. injection Hlast as <-.
  destruct (draft_reply_node_ok_inv _ _ Hd)
    as (prompt & reply' & Hchat & Hu & Hmode).
  assert (reply' = reply) as ->.
  { rewrite Hu in Hum. cbn [upd_messages] in Hum. now injection Hum. }
  exists prompt, (messages (spec.at_draft mock_data json_dumps s1)), reply.
  split; [exact Hchat|]. split; [exact Htext|].
  unfold spec.at_draft in *. rewrite Hoid, Hissue.
  destruct (Py.truthy (order_id s1)) eqn:Et.
  - right. split; [reflexivity|].
    destruct Hmode as [[Hf _]|[_ (template & Htpl & Hp)]];
      [cbn [order_id spec.after_fetch] in Hf; congruence|].
    cbn [order_id issue_type spec.after_fetch] in Htpl, Hp.
    rewrite Hi1 in Htpl, Hp.
    split; [exists template; now split|].
    cbn [spec.after_fetch messages]. now rewrite Hm1.
  - left. split; [reflexivity|].
    destruct Hmode as [[_ Hp]|[Ht _]]; [|congruence].
    rewrite Hm1, Hi1 in Hp. cbn in Hp. now split.
Qed.

End EndToEnd.

(** The first call of the examples answers with the id found in its
    text. *)
Lemma X13_triage_invoke_reports_resolved_id_witness :
  exists i cand,
    scenario.structured_llm
      [schema.SystemMessage graph.system_prompt;
       schema.HumanMessage "My order ORD-4521 arrived broken"]
    = graph.Structured i cand
    /\ "damaged_item" = i
    /\ Some "ORD4521" =
       graph.resolve_order_id cand (Some "My order ORD-4521 arrived broken")
         (spec.explicit_id None).
Proof.
  apply (X13_triage_invoke_reports_resolved_id scenario.mock_data
           scenario.raw_issues scenario.structured_llm scenario.chat_llm
           scenario.json_dumps scenario.render scenario.today
           [scenario.lamp; scenario.kettle] ∅
           "00000000-0000-4000-8000-000000000000" scenario.first_call
           {| main.out_order_id := Some "ORD4521";
              main.out_issue_type := "damaged_item";
              main.out_order := None;
              main.out_reply_text := "We are on it." |}).
  vm_compute. reflexivity.
Defined.

(** A call that hands in the order id as it is stored gets the record
    back. *)
Lemma X14_reported_order_matches_exactly_witness :
  In scenario.lamp [scenario.lamp; scenario.kettle]
  /\ scenario.lamp !! "order_id" = Some "ORD-4521".
Proof.
  apply (proj1 (X14_reported_order_matches_exactly scenario.mock_data
                  scenario.raw_issues scenario.structured_llm
                  scenario.chat_llm scenario.json_dumps scenario.render
                  scenario.today [scenario.lamp; scenario.kettle] ∅
                  "00000000-0000-4000-8000-000000000000"
                  {| main.ticket_text := "It arrived broken";
                     main.order_id := Some "ORD-4521";
                     main.conversation_id := None |}
                  {| main.out_order_id := Some "ORD-4521";
                     main.out_issue_type := "damaged_item";
                     main.out_order := Some scenario.lamp;
                     main.out_reply_text := "We are on it." |}
                  ltac:(vm_compute; reflexivity))
           scenario.lamp eq_refl).
Defined.

Lemma X15_reply_is_drafted_from_prompt_witness :
  exists prompt transcript reply,
    scenario.chat_llm
      (schema.SystemMessage (scenario.render prompt) :: transcript) = Ok reply
    /\ "We are on it." = schema.content_of reply.
Proof.
  destruct (X15_reply_is_drafted_from_prompt scenario.mock_data
              scenario.raw_issues scenario.structured_llm scenario.chat_llm
              scenario.json_dumps scenario.render scenario.today
              [scenario.lamp; scenario.kettle] ∅
              "00000000-0000-4000-8000-000000000000" scenario.second_call
              {| main.out_order_id := None;
                 main.out_issue_type := "damaged_item";
                 main.out_order := None;
                 main.out_reply_text := "We are on it." |}
              ltac:(vm_compute; reflexivity))
    as (prompt & transcript & reply & Hchat & Htext & _).
  exists prompt, transcript, reply. split; [exact Hchat | exact Htext].
Defined.

(** ** The order endpoints of [main.py] *)

Section OrderEndpoints.

Lemma getitem_ok (o : Dict) (k : string) :
  is_Some (o !! k) -> main.getitem o k = Ok (default "" (o !! k)).
Proof. intros [v Hv]. unfold main.getitem. now rewrite Hv. Qed.

Lemma orders_get_sound (ORDERS : list Dict) (id : string) (o : Dict) :
  main.orders_get ORDERS id = main.OrderFound o ->
  exists pre post,
    ORDERS = pre ++ o :: post /\ o !! "order_id" = Some id
    /\ forall z, In z pre -> z !! "order_id" <> Some id.
Proof.
  induction ORDERS as [|x rest IH]; [discriminate|].
  cbn [main.orders_get]. unfold main.getitem.
  destruct (x !! "order_id") as [i|] eqn:E; [|discriminate].
  destruct (String.eqb i id) eqn:Ei.
  - intros [= <-]. apply String.eqb_eq in Ei. subst.
    exists [], rest. repeat split; [exact E | intros z []].
  - intros H. destruct (IH H) as (pre & post & -> & Ho & Hpre).
    exists (x :: pre), post. repeat split; [exact Ho|].
    intros z [<-|Hz]; [|now apply Hpre].
    rewrite E. intros [= ->]. now rewrite String.eqb_refl in Ei.
Qed.

Lemma orders_get_total (ORDERS : list Dict) (id : string) :
  (forall o, In o ORDERS -> is_Some (o !! "order_id")) ->
  (exists o, main.orders_get ORDERS id = main.OrderFound o)
  \/ (main.orders_get ORDERS id = main.Http404 "Order not found"
      /\ forall o, In o ORDERS -> o !! "order_id" <> Some id).
Proof.
  induction ORDERS as [|x rest IH]; intros Hall.
  - right. split; [reflexivity | intros o []].
  - cbn [main.orders_get]. unfold main.getitem.
    destruct (Hall x) as [i Hi]; [now left|]. rewrite Hi.
    destruct (String.eqb i id) eqn:Ei; [left; eauto|].
    destruct IH as [Hf|[H404 Hno]].
    + intros o Ho. apply Hall. now right.
    + now left.
    + right. split; [exact H404|].
      intros o [<-|Ho]; [|now apply Hno].
      rewrite Hi. intros [= ->]. now rewrite String.eqb_refl in Ei.
Qed.

Lemma search_hit_ok (e q : option string) (o : Dict) :
  spec.searchable o -> main.search_hit e q o = Ok (spec.hits e q o).
Proof.
  intros (He & Hi & Hn). unfold main.search_hit, spec.hits.
  rewrite (getitem_ok _ _ He), (getitem_ok _ _ Hi), (getitem_ok _ _ Hn).
  destruct (Py.truthy e); cbn [mbind result_bind andb orb].
  - destruct (String.eqb _ _); cbn [orb]; [reflexivity|].
    destruct (Py.truthy q); cbn [mbind result_bind andb]; [|reflexivity].
    now destruct (Py.contains _ _).
  - destruct (Py.truthy q); cbn [mbind result_bind andb]; [|reflexivity].
    now destruct (Py.contains _ _).
Qed.

Lemma search_hit_no_filter (e q : option string) (o : Dict) :
  Py.truthy e = false -> Py.truthy q = false ->
  main.search_hit e q o = Ok false.
Proof. intros He Hq. unfold main.search_hit. now rewrite He, Hq. Qed.

Lemma search_hit_case (e1 e2 q1 q2 : option string) (o : Dict) :
  Py.truthy e1 = Py.truthy e2 ->
  Py.lower (Py.str e1) = Py.lower (Py.str e2) ->
  Py.truthy q1 = Py.truthy q2 ->
  Py.lower (Py.str q1) = Py.lower (Py.str q2) ->
  main.search_hit e1 q1 o = main.search_hit e2 q2 o.
Proof.
  intros He Hel Hq Hql. unfold main.search_hit.
  now rewrite He, Hel, Hq, Hql.
Qed.

Lemma lower_char_upper_char (c : ascii) :
  Py.lower_char (Py.upper_char c) = Py.lower_char c.
Proof. destruct c as [[] [] [] [] [] [] [] []]; reflexivity. Qed.

Lemma lower_upper (s : string) : Py.lower (Py.upper s) = Py.lower s.
Proof.
  induction s as [|c s IH]; [reflexivity|].
  cbn. now rewrite lower_char_upper_char, IH.
Qed.

Lemma truthy_upper (s : string) :
  Py.truthy (Some (Py.upper s)) = Py.truthy (Some s).
Proof. now destruct s. Qed.

End OrderEndpoints.

(** X16.  [GET /orders/get] compares ids exactly.  A record it returns
    is the first record of ORDERS whose stored id is the requested id,
    character for character; when every record has an "order_id" field
    it returns a record or answers 404, the latter exactly when no
    stored id equals the requested one. *)
Theorem X16_orders_get_exact (ORDERS : list Dict) (id : string) :
  (forall o,
     main.orders_get ORDERS id = main.OrderFound o ->
     exists pre post,
       ORDERS = pre ++ o :: post /\ o !! "order_id" = Some id
       /\ forall z, In z pre -> z !! "order_id" <> Some id)
  /\ ((forall o, In o ORDERS -> is_Some (o !! "order_id")) ->
      (forall e, main.orders_get ORDERS id <> main.Unhandled e)
      /\ (main.orders_get ORDERS id = main.Http404 "Order not found" <->
          forall o, In o ORDERS -> o !! "order_id" <> Some id)).
Proof.
  split; [apply orders_get_sound|].
  intros Hall. destruct (orders_get_total ORDERS id Hall)
    as [[o Ho]|[H404 Hno]].
  - split; [intros e; rewrite Ho; discriminate|].
    split; [rewrite Ho; discriminate|].
    intros Hno. apply orders_get_sound in Ho as (pre & post & -> & Hid & _).
    exfalso. apply (Hno o); [|exact Hid].
    apply in_or_app. right. now left.
  - split; [intros e; rewrite H404; discriminate|].
    split; [intros _; exact Hno | intros _; exact H404].
Qed.

Lemma X16_orders_get_exact_witness :
  main.orders_get [scenario.lamp; scenario.kettle] "ORD4521"
  = main.Http404 "Order not found".
Proof.
  apply (proj2 (X16_orders_get_exact [scenario.lamp; scenario.kettle]
                  "ORD4521")).
  - intros o [<-|[<-|[]]]; now eexists.
  - intros o [<-|[<-|[]]]; discriminate.
Defined.

(** X17.  Whatever [GET /orders/get] finds, the lookup of the pipeline
    finds too: when both read the same records and the requested id is
    not empty, a hit of the exact comparison is a hit of the normalized
    one, on a record with the same normalized id. *)
Theorem X17_exact_hit_is_normalized_hit
  (mock_data : string -> option (list Dict)) (ORDERS : list Dict)
  (id : string) (o : Dict) :
  mock_data "orders.json" = Some ORDERS ->
  id <> "" ->
  main.orders_get ORDERS id = main.OrderFound o ->
  exists found,
    utils.lookup_order mock_data (Some id) = Some found
    /\ utils.clean (default "" (found !! "order_id")) = utils.clean id.
Proof.
  intros Hfile Hid Hget.
  apply orders_get_sound in Hget as (pre & post & -> & Ho & _).
  rewrite lookup_order_find by exact Hid.
  unfold utils.load_json. rewrite Hfile.
  destruct (find_first
              (fun order => String.eqb (spec.stored_key order) (utils.clean id))
              (pre ++ o :: post) o)
    as (pre' & found & post' & _ & Hfind & Hfound & _).
  - apply in_or_app. right. now left.
  - unfold spec.stored_key. rewrite Ho. apply String.eqb_refl.
  - exists found. split; [exact Hfind|]. now apply String.eqb_eq in Hfound.
Qed.

Lemma X17_exact_hit_is_normalized_hit_witness :
  exists found,
    utils.lookup_order scenario.mock_data (Some "ord 77") = Some found
    /\ utils.clean (default "" (found !! "order_id")) = utils.clean "ord 77".
Proof.
  apply (X17_exact_hit_is_normalized_hit scenario.mock_data
           [scenario.lamp; scenario.kettle] "ord 77" scenario.kettle).
  - reflexivity.
  - discriminate.
  - vm_compute. reflexivity.
Defined.

(** X18.  [GET /orders/search] on records that have the fields it reads
    (email, order_id, customer_name) never fails and returns, in the
    order of ORDERS, exactly the records whose email equals the given
    one ignoring case or, for a given free text, whose order id or
    customer name occurs in the text ignoring case.  With no email and
    no free text (or empty ones) the result is empty whatever the
    records hold. *)
Theorem X18_orders_search_filters (ORDERS : list Dict)
  (customer_email q : option string) :
  ((forall o, In o ORDERS -> spec.searchable o) ->
   main.orders_search ORDERS customer_email q
   = Ok (List.filter (spec.hits customer_email q) ORDERS))
  /\ (Py.truthy customer_email = false -> Py.truthy q = false ->
      main.orders_search ORDERS customer_email q = Ok []).
Proof.
  split.
  - induction ORDERS as [|o rest IH]; intros Hall; [reflexivity|].
    cbn [main.orders_search List.filter].
    rewrite search_hit_ok by (apply Hall; now left).
    rewrite IH by (intros z Hz; apply Hall; now right). reflexivity.
  - intros He Hq. induction ORDERS as [|o rest IH]; [reflexivity|].
    cbn [main.orders_search]. rewrite search_hit_no_filter by assumption.
    now rewrite IH.
Qed.

Lemma X18_orders_search_filters_witness :
  main.orders_search [scenario.ava] None (Some "Where is ord1001?")
  = Ok (List.filter (spec.hits None (Some "Where is ord1001?"))
          [scenario.ava]).
Proof.
  apply (proj1 (X18_orders_search_filters [scenario.ava] None
                  (Some "Where is ord1001?"))).
  intros o [<-|[]]. repeat split; now eexists.
Defined.

(** X19.  [GET /orders/search] ignores the case of its arguments: two
    emails, and two free texts, that differ only in the case of their
    letters give the same result, error or list. *)
Theorem X19_orders_search_ignores_case (ORDERS : list Dict)
  (e1 e2 q1 q2 : option string) :
  Py.truthy e1 = Py.truthy e2 ->
  Py.lower (Py.str e1) = Py.lower (Py.str e2) ->
  Py.truthy q1 = Py.truthy q2 ->
  Py.lower (Py.str q1) = Py.lower (Py.str q2) ->
  main.orders_search ORDERS e1 q1 = main.orders_search ORDERS e2 q2.
Proof.
  intros He Hel Hq Hql. induction ORDERS as [|o rest IH]; [reflexivity|].
  cbn [main.orders_search].
  now rewrite (search_hit_case e1 e2 q1 q2 o He Hel Hq Hql), IH.
Qed.

Lemma X19_orders_search_ignores_case_witness :
  main.orders_search [scenario.ava] (Some "AVA.CHEN@EXAMPLE.COM")
    (Some "Ava?")
  = main.orders_search [scenario.ava] (Some "ava.chen@example.com")
      (Some "AVA?").
Proof.
  apply (X19_orders_search_ignores_case [scenario.ava]); reflexivity.
Defined.

(** ** The endpoint of [server.py] *)

Section ServerEndpoint.

Import schema.

Variable mock_data : string -> option (list Dict).
Variable raw_issues : list string.
Variable structured_llm : list Message -> graph.LLMReply.
Variable chat_llm : list Message -> result Message.
Variable json_dumps : Dict -> string.
Variable render : graph.DraftPrompt -> string.
Variable today : string.
Variable ORDERS : list Dict.

Local Abbreviation the_graph :=
  (graph.graph mock_data raw_issues structured_llm chat_llm json_dumps
     render today).
Local Abbreviation triage_invoke_manual :=
  (server.triage_invoke_manual mock_data raw_issues structured_llm chat_llm
     json_dumps render today ORDERS).

Lemma server_answered_inv (saver : gmap string AgentState)
  (body : server.TriageInput) (out : server.TriageOutput) :
  fst (triage_invoke_manual saver body) = server.Answered out ->
  let r :=
    fst (graph.invoke the_graph saver (server.inputs_of body)
           "assessment_mode") in
  graph.outcome r = Ok tt
  /\ exists last_msg,
       last (messages (graph.final_state r)) = Some last_msg
       /\ server.hydrate ORDERS (order_id (graph.final_state r))
          = Ok (server.out_order out)
       /\ server.out_order_id out = order_id (graph.final_state r)
       /\ server.out_issue_type out = issue_type (graph.final_state r)
       /\ server.out_reply_text out = content_of last_msg.
Proof.
  cbv zeta. unfold server.triage_invoke_manual.
  destruct (graph.invoke _ saver _ _) as [r saver'] eqn:Ei. cbn [fst].
  destruct (graph.outcome r) as [[]|e]; [|discriminate].
  destruct (last (messages (graph.final_state r))) as [last_msg|];
    [|discriminate].
  destruct (server.hydrate ORDERS _) as [full|e]; [|discriminate].
  intros [= <-]. split; [reflexivity|]. exists last_msg. now repeat split.
Qed.

Lemma server_initial_messages (body : server.TriageInput) :
  messages (apply_update empty_state (server.inputs_of body)) = [].
Proof. reflexivity. Qed.

Lemma server_initial_text (body : server.TriageInput) :
  graph.text_to_analyze (apply_update empty_state (server.inputs_of body))
  = Some (server.ticket_text body).
Proof.
  unfold graph.text_to_analyze. cbn.
  now destruct (server.ticket_text body).
Qed.

Lemma server_initial_order_id (body : server.TriageInput) :
  order_id (apply_update empty_state (server.inputs_of body))
  = spec.explicit_id (server.order_id body).
Proof.
  unfold spec.explicit_id. cbn.
  now destruct (Py.truthy (server.order_id body)).
Qed.

Lemma server_hydrate_sound (orders : list Dict) (oid : option string)
  (o : Dict) :
  server.hydrate orders oid = Ok (Some o) ->
  In o orders /\ o !! "order_id" = oid.
Proof.
  induction orders as [|x rest IH]; [discriminate|].
  cbn [server.hydrate]. unfold main.getitem.
  destruct (x !! "order_id") as [i|] eqn:E; [|discriminate].
  cbn [mbind result_bind]. case_bool_decide as Hi.
  - intros [= <-]. split; [now left | congruence].
  - intros H. destruct (IH H). split; [now right | assumption].
Qed.

(** X20.  The endpoint of server.py classifies without the ticket: the
    graph input carries no message, so the classifier is asked with the
    system prompt alone.  Whenever the endpoint answers, that answer
    decoded, the reported issue type is the one it named, the reported
    order id is what the resolver makes of its candidate, the ticket
    text and the caller's explicit order id, and an order record in the
    answer is a record of ORDERS stored under exactly the reported id. *)
Theorem X20_server_classifies_without_ticket
  (saver : gmap string AgentState) (body : server.TriageInput)
  (out : server.TriageOutput) :
  fst (triage_invoke_manual saver body) = server.Answered out ->
  exists i cand,
    structured_llm [SystemMessage graph.system_prompt]
    = graph.Structured i cand
    /\ server.out_issue_type out = Some i
    /\ server.out_order_id out =
       graph.resolve_order_id cand (Some (server.ticket_text body))
         (spec.explicit_id (server.order_id body))
    /\ (forall o, server.out_order out = Some o ->
          In o ORDERS /\ o !! "order_id" = server.out_order_id out).
Proof.
  intros H. apply server_answered_inv in H. cbv zeta in H.
  destruct H as (Hok & last_msg & _ & Hh & Hoid & Hissue & _).
  rewrite <- Hoid in Hh.
  destruct (invoke_finished _ _ _ _ _ _ _ _ _ _ Hok)
    as (i & cand & u & reply & Hreply & _ & _ & Hfinal).
  rewrite server_initial_messages in Hreply.
  rewrite Hfinal in Hoid, Hissue. cbn [order_id issue_type] in Hoid, Hissue.
  rewrite server_initial_text, server_initial_order_id in Hoid.
  exists i, cand. split; [exact Hreply|]. split; [exact Hissue|].
  split; [exact Hoid|].
  intros o Ho. rewrite Ho in Hh. now apply server_hydrate_sound.
Qed.

(** X21.  In the endpoint of server.py the drafting step has no user
    message to quote.  With no order id resolved the prompt asks for the
    id with "Unknown" in place of the customer's words and the model
    sees the prompt alone; with an order id the model sees the prompt
    and the tool message of the lookup. *)
Theorem X21_server_drafts_without_user_message
  (saver : gmap string AgentState) (body : server.TriageInput)
  (out : server.TriageOutput) :
  fst (triage_invoke_manual saver body) = server.Answered out ->
  exists prompt transcript reply,
    chat_llm (SystemMessage (render prompt) :: transcript) = Ok reply
    /\ server.out_reply_text out = content_of reply
    /\ ((Py.truthy (server.out_order_id out) = false
         /\ prompt =
            graph.AskForOrderId (server.out_issue_type out) "Unknown" today
         /\ transcript = [])
        \/ (Py.truthy (server.out_order_id out) = true
            /\ (exists template,
                  utils.get_reply_template mock_data
                    (server.out_issue_type out) = Ok template
                  /\ prompt =
                     graph.UseTemplate (server.out_issue_type out)
                       (Py.str (server.out_order_id out)) template today)
            /\ transcript =
               [ToolMessage
                  (graph.fetch_order_tool mock_data json_dumps
                     (Py.str (server.out_order_id out)))
                  "fetch_order"
                  ("call_" +:+ Py.str (server.out_order_id out))])).
Proof.
  intros H. apply server_answered_inv in H. cbv zeta in H.
  destruct H as (Hok & last_msg & Hlast & _ & Hoid & Hissue & Htext).
  destruct (invoke_finished _ _ _ _ _ _ _ _ _ _ Hok)
    as (i & cand & u & reply & _ & Hd & Hum & Hfinal).
  match type of Hd with
  | graph.draft_reply_node _ _ _ _ (spec.at_draft _ _ ?s) = _ =>
      remember s as s1 eqn:Es1
  end.
  assert (Hm1 : messages s1 = []) by now rewrite Es1.
  assert (Hi1 : issue_type s1 = Some i) by now rewrite Es1.
  clear Es1.
  rewrite Hfinal in Hlast, Hoid, Hissue.
  cbn [messages order_id issue_type] in Hlast, Hoid, Hissue.
  rewrite last_snoc in Hlast. injection Hlast as <-.
  destruct (draft_reply_node_ok_inv _ _ _ _ _ _ Hd)
    as (prompt & reply' & Hchat & Hu & Hmode).
  assert (reply' = reply) as ->.
  { rewrite Hu in Hum. cbn [upd_messages] in Hum. now injection Hum. }
  exists prompt, (messages (spec.at_draft mock_data json_dumps s1)), reply.
  split; [exact Hchat|]. split; [exact Htext|].
  unfold spec.at_draft in *. rewrite Hoid, Hissue, <- Hi1.
  destruct (Py.truthy (order_id s1)) eqn:Et.
  - right. split; [reflexivity|].
    destruct Hmode as [[Hf _]|[_ (template & Htpl & Hp)]];
      [cbn [order_id spec.after_fetch] in Hf; congruence|].
    cbn [order_id issue_type spec.after_fetch] in Htpl, Hp.
    split; [exists template; now split|].
    cbn [spec.after_fetch messages]. now rewrite Hm1.
  - left. split; [reflexivity|].
    destruct Hmode as [[_ Hp]|[Ht _]]; [|congruence].
    rewrite Hm1 in Hp. cbn in Hp. now split.
Qed.

End ServerEndpoint.

Lemma X20_server_classifies_without_ticket_witness :
  exists i cand,
    scenario.structured_llm [schema.SystemMessage graph.system_prompt]
    = graph.Structured i cand
    /\ Some "damaged_item" = Some i
    /\ Some "ORD4521" =
       graph.resolve_order_id cand (Some "My order ORD-4521 arrived broken")
         (spec.explicit_id None).
Proof.
  destruct (X20_server_classifies_without_ticket scenario.mock_data
              scenario.raw_issues scenario.structured_llm scenario.chat_llm
              scenario.json_dumps scenario.render scenario.today
              [scenario.lamp; scenario.kettle] ∅
              {| server.ticket_text := "My order ORD-4521 arrived broken";
                 server.order_id := None |}
              {| server.out_order_id := Some "ORD4521";
                 server.out_issue_type := Some "damaged_item";
                 server.out_order := None;
                 server.out_reply_text := "We are on it." |}
              ltac:(vm_compute; reflexivity))
    as (i & cand & H1 & H2 & H3 & _).
  exists i, cand. split; [exact H1|]. split; [exact H2 | exact H3].
Defined.

Lemma X21_server_drafts_without_user_message_witness :
  exists prompt transcript reply,
    scenario.chat_llm
      (schema.SystemMessage (scenario.render prompt) :: transcript) = Ok reply
    /\ "We are on it." = schema.content_of reply.
Proof.
  destruct (X21_server_drafts_without_user_message scenario.mock_data
              scenario.raw_issues scenario.structured_llm scenario.chat_llm
              scenario.json_dumps scenario.render scenario.today
              [scenario.lamp; scenario.kettle] ∅
              {| server.ticket_text := "Where is my package?";
                 server.order_id := None |}
              {| server.out_order_id := None;
                 server.out_issue_type := Some "damaged_item";
                 server.out_order := None;
                 server.out_reply_text := "We are on it." |}
              ltac:(vm_compute; reflexivity))
    as (prompt & transcript & reply & Hchat & Htext & _).
  exists prompt, transcript, reply. split; [exact Hchat | exact Htext].
Defined.
